(** * A shallow embedding of [service-worker.js]

    The worker registers three listeners (install, activate, fetch) that
    talk to two host collaborators: the named-store API ([caches]) and the
    network ([fetch]).  The embedding keeps the shape of the script:

    - JavaScript strings are [string]s, with the handful of
      [String.prototype] methods the script calls written out;
    - a promise chain is a computation in a small monad that threads the
      store state and an effect trace and may reject; [.then] is bind and
      [.catch] is [catch];
    - the host is an explicit environment (what the network answers, which
      store operations fail), so every handler is an executable function. *)

From stdpp Require Import base list strings gmap.
From Stdlib Require Import ZArith Ascii String.

Local Open Scope string_scope.
Local Open Scope Z_scope.

(** ** JavaScript string and array methods used by the worker *)

Module JS.

(** [s.startsWith(p)] *)
Definition startsWith (s p : string) : bool := String.prefix p s.

(** [s.includes(sub)]: [sub] occurs somewhere in [s]. *)
Fixpoint includes (s sub : string) : bool :=
  String.prefix sub s
  || match s with
     | EmptyString => false
     | String _ s' => includes s' sub
     end.

(** Drop the first [n] characters. *)
Fixpoint skip (n : nat) (s : string) : string :=
  match n, s with
  | O, _ => s
  | S _, EmptyString => EmptyString
  | S n', String _ s' => skip n' s'
  end.

(** [s.replace(pat, rep)] with a string pattern: only the first
    occurrence of [pat] (scanning from the left) is replaced. *)
Fixpoint replace (s pat rep : string) : string :=
  if String.prefix pat s then rep ++ skip (String.length pat) s
  else match s with
       | EmptyString => EmptyString
       | String c s' => String c (replace s' pat rep)
       end.

(** [arr.indexOf(x)]: position of the first element equal to [x], [-1]
    when there is none. *)
Fixpoint indexOf_from (i : Z) (arr : list string) (x : string) : Z :=
  match arr with
  | [] => -1
  | y :: arr' => if String.eqb y x then i else indexOf_from (i + 1) arr' x
  end.

Definition indexOf (arr : list string) (x : string) : Z :=
  indexOf_from 0 arr x.

(** [arr.some(p)] *)
Definition some {A} (arr : list A) (p : A -> bool) : bool := existsb p arr.

End JS.

(** ** URLs, requests and responses *)

Module URL.

Definition ends_path (c : ascii) : bool :=
  Ascii.eqb c "?"%char || Ascii.eqb c "#"%char.

(** Everything after the scheme's colon. *)
Fixpoint after_scheme (s : string) : string :=
  match s with
  | EmptyString => EmptyString
  | String c s' => if Ascii.eqb c ":"%char then s' else after_scheme s'
  end.

(** Skip the authority (host, port, credentials). *)
Fixpoint after_authority (s : string) : string :=
  match s with
  | EmptyString => EmptyString
  | String c s' =>
      if Ascii.eqb c "/"%char || ends_path c then s else after_authority s'
  end.

(** Keep characters up to the query or the fragment. *)
Fixpoint until_query (s : string) : string :=
  match s with
  | EmptyString => EmptyString
  | String c s' => if ends_path c then EmptyString else String c (until_query s')
  end.

(** [new URL(href).pathname] for the serialised absolute URLs that
    [event.request.url] holds: the text between the authority and the
    query or fragment, ["/"] when a hierarchical URL has none. *)
Definition pathname (href : string) : string :=
  let rest := after_scheme href in
  if String.prefix "//" rest then
    let p := until_query (after_authority (JS.skip 2 rest)) in
    if String.eqb p EmptyString then "/" else p
  else until_query rest.

End URL.

Record Request := mkRequest { url : string; method : string }.

Record Response := mkResponse { status : Z; body : string }.

(** [response.ok]: the status is in the range 200-299. *)
Definition ok (r : Response) : bool := (200 <=? status r) && (status r <=? 299).

(** [response.clone()]: an independent copy with the same content. *)
Definition clone (r : Response) : Response :=
  {| status := status r; body := body r |}.

(** ** The host: named stores, network, lifecycle *)

(** A store ([Cache]) maps a request to a response.  Requests are matched
    on their URL, and only [GET] requests ever match or may be written, so
    a store is a finite map from URL to response.  The storage
    ([CacheStorage]) keeps its stores in creation order, which is the
    order [caches.match] searches them in. *)
Abbreviation Cache := (gmap string Response).
Abbreviation CacheStorage := (list (string * gmap string Response)).

(** What the worker asks of the host, in program order. *)
Inductive Effect :=
| CachesOpen (name : string)
| CachesKeys
| CachesDelete (name : string)
| CachesMatch (req : Request)
| CacheAddAll (name : string) (urls : list string)
| CachePut (name : string) (req : Request)
| Fetch (req : Request)
| SkipWaiting
| ClientsClaim.

(** A callback left on a promise the script never waits for: lines
    104-106 write the copy once the store is open, while the handler has
    gone on. *)
Inductive Task :=
| PutWhenOpen (cache : string) (req : Request) (resp : Response).

Record Worker := mkWorker {
  caches : CacheStorage;
  trace : list Effect;
  detached : list Task
}.

(** The host's side of every call: the origin relative URLs resolve
    against, what the network answers ([None]: the fetch fails), and
    whether opening or writing a store succeeds.  Lookups, enumeration and
    deletion are taken to succeed. *)
Record Host := mkHost {
  origin : string;
  network : Request -> option Response;
  open_ok : string -> bool;
  put_ok : string -> Request -> bool
}.

(** ** Promises *)

Inductive Settled (A : Type) :=
| Fulfilled (a : A)
| Rejected.
Arguments Fulfilled {A} a.
Arguments Rejected {A}.

Definition Promise (A : Type) : Type := Host -> Worker -> Settled A * Worker.

(** [Promise.resolve(a)] *)
Definition resolve {A} (a : A) : Promise A := fun _ w => (Fulfilled a, w).

(** [p.then(f)] *)
Definition then_ {A B} (p : Promise A) (f : A -> Promise B) : Promise B :=
  fun h w =>
    match p h w with
    | (Fulfilled a, w') => f a h w'
    | (Rejected, w') => (Rejected, w')
    end.

(** [p.catch(f)] *)
Definition catch {A} (p : Promise A) (f : unit -> Promise A) : Promise A :=
  fun h w =>
    match p h w with
    | (Fulfilled a, w') => (Fulfilled a, w')
    | (Rejected, w') => f tt h w'
    end.

(** [Promise.all(ps)]: the promises in [ps] were all started, so each runs
    to its end; the result rejects when one of them does. *)
Fixpoint all {A} (ps : list (Promise A)) : Promise (list A) :=
  fun h w =>
    match ps with
    | [] => (Fulfilled [], w)
    | p :: ps' =>
        let '(r, w1) := p h w in
        let '(rs, w2) := all ps' h w1 in
        (match r, rs with
         | Fulfilled a, Fulfilled l => Fulfilled (a :: l)
         | _, _ => Rejected
         end, w2)
    end.

Notation "x <- p ;; k" := (then_ p (fun x => k))
  (at level 62, p at level 61, right associativity).

Definition log (e : Effect) (w : Worker) : Worker :=
  {| caches := caches w; trace := trace w ++ [e]; detached := detached w |}.

Definition set_caches (cs : CacheStorage) (w : Worker) : Worker :=
  {| caches := cs; trace := trace w; detached := detached w |}.

(** Leave a callback to run later, without waiting for it. *)
Definition spawn (t : Task) : Promise unit :=
  fun _ w =>
    (Fulfilled tt,
     {| caches := caches w; trace := trace w; detached := detached w ++ [t] |}).

(** Call [p] and drop its promise: what it asks of the host is asked now,
    its outcome is nobody's to handle. *)
Definition forget {A} (p : Promise A) : Promise unit :=
  fun h w => (Fulfilled tt, snd (p h w)).

(** ** Host primitives *)

Definition has_cache (name : string) (cs : CacheStorage) : bool :=
  existsb (fun kv => String.eqb (fst kv) name) cs.

Fixpoint update_cache (name : string) (f : Cache -> Cache)
    (cs : CacheStorage) : CacheStorage :=
  match cs with
  | [] => []
  | (n, c) :: cs' =>
      if String.eqb n name then (n, f c) :: cs'
      else (n, c) :: update_cache name f cs'
  end.

(** [caches.open(name)]: the store is created when absent; resolves to a
    handle on it (its name). *)
Definition caches_open (name : string) : Promise string :=
  fun h w =>
    let w := log (CachesOpen name) w in
    if open_ok h name then
      (Fulfilled name,
       if has_cache name (caches w) then w
       else set_caches (caches w ++ [(name, ∅)]) w)
    else (Rejected, w).

(** [caches.keys()], taken to fulfil. *)
Definition caches_keys : Promise (list string) :=
  fun _ w => (Fulfilled (map fst (caches w)), log CachesKeys w).

(** [caches.delete(name)]: resolves to whether the store existed; taken to
    fulfil. *)
Definition caches_delete (name : string) : Promise bool :=
  fun _ w =>
    let w := log (CachesDelete name) w in
    (Fulfilled (has_cache name (caches w)),
     set_caches (List.filter (fun kv => negb (String.eqb (fst kv) name)) (caches w)) w).

(** [cache.match(req)] on one store. *)
Definition cache_match (c : Cache) (req : Request) : option Response :=
  if String.eqb (method req) "GET" then c !! url req else None.

(** [caches.match(req)]: the first store, in creation order, holding a
    match; [None] is JavaScript's [undefined]. *)
Fixpoint storage_match (cs : CacheStorage) (req : Request)
    : option Response :=
  match cs with
  | [] => None
  | (_, c) :: cs' =>
      match cache_match c req with
      | Some r => Some r
      | None => storage_match cs' req
      end
  end.

Definition caches_match (req : Request) : Promise (option Response) :=
  fun _ w => (Fulfilled (storage_match (caches w) req), log (CachesMatch req) w).

(** [fetch(req)]: resolves with whatever response arrives, whatever its
    status, and rejects only when the network fails. *)
Definition fetch (req : Request) : Promise Response :=
  fun h w =>
    let w := log (Fetch req) w in
    match network h req with
    | Some r => (Fulfilled r, w)
    | None => (Rejected, w)
    end.

(** [cache.put(req, resp)] on the store [name]: rejects for a request that
    is not a [GET] or when the write fails. *)
Definition cache_put (name : string) (req : Request) (resp : Response) : Promise unit :=
  fun h w =>
    let w := log (CachePut name req) w in
    if String.eqb (method req) "GET" && put_ok h name req then
      (Fulfilled tt, set_caches (update_cache name (insert (url req) resp) (caches w)) w)
    else (Rejected, w).

(** A URL string given to [addAll] becomes a [GET] request, resolved
    against the worker's origin when it is a path. *)
Definition request_of (h : Host) (u : string) : Request :=
  {| url := if JS.startsWith u "/" then origin h ++ u else u; method := "GET" |}.

(** Fetch every request of a batch, in order, keeping the responses only
    when every one arrived with an ok status. *)
Fixpoint fetch_batch (h : Host) (reqs : list Request) : option (list (Request * Response)) :=
  match reqs with
  | [] => Some []
  | req :: reqs' =>
      match network h req, fetch_batch h reqs' with
      | Some r, Some rest => if ok r then Some ((req, r) :: rest) else None
      | _, _ => None
      end
  end.

(** [cache.addAll(urls)] on the store [name], as the Cache interface of the
    Service Worker standard defines it: every URL is fetched, and the
    entries are written in one batch only when every fetch succeeded with
    an ok status; otherwise the promise rejects and nothing is written. *)
Definition cache_addAll (name : string) (urls : list string) : Promise unit :=
  fun h w =>
    let reqs := map (request_of h) urls in
    let w := fold_left (fun w req => log (Fetch req) w) reqs (log (CacheAddAll name urls) w) in
    match fetch_batch h reqs with
    | Some entries =>
        if forallb (fun e => put_ok h name (fst e)) entries then
          (Fulfilled tt,
           set_caches
             (fold_left (fun cs e => update_cache name (insert (url (fst e)) (snd e)) cs)
                        entries (caches w)) w)
        else (Rejected, w)
    | None => (Rejected, w)
    end.

(** [self.skipWaiting()] and [self.clients.claim()] *)
Definition skipWaiting : Promise unit := fun _ w => (Fulfilled tt, log SkipWaiting w).
Definition clients_claim : Promise unit := fun _ w => (Fulfilled tt, log ClientsClaim w).

(** Run one detached task to its end; a rejection is nobody's to handle. *)
Definition run_task (t : Task) (h : Host) (w : Worker) : Worker :=
  match t with
  | PutWhenOpen cache req resp => snd (cache_put cache req resp h w)
  end.

(** Let every detached task finish. *)
Definition settle (h : Host) (w : Worker) : Worker :=
  fold_left (fun w t => run_task t h w) (detached w)
            {| caches := caches w; trace := trace w; detached := [] |}.

(** ** The three handlers

    The script reads its version tag and asset list from module-level
    constants; here they are the section's variables, and the deployed
    worker below instantiates them with the constants of lines 2-14. *)

(** What a fetch listener leaves the platform with: no [respondWith] call
    (the platform handles the request itself), or the settled value of the
    promise given to [respondWith], where [None] stands for [undefined] or a
    rejection, both of which the page sees as a failed request. *)
Inductive Outcome :=
| NotHandled
| RespondWith (r : option Response).

(** The arm of the listener's conditional a request is sent to. *)
Inductive Strategy :=
| Ignore
| CacheFirst
| NetworkFirst
| NetworkOnly.

Definition respondWith (p : Promise (option Response)) (h : Host) (w : Worker)
    : Outcome * Worker :=
  match p h w with
  | (Fulfilled r, w') => (RespondWith r, w')
  | (Rejected, w') => (RespondWith None, w')
  end.

Section Handlers.

Variable version : string.
Variable assets : list string.

(** Lines 5-6. *)
Definition STATIC_CACHE : string := version ++ "-static-assets".
Definition NEWS_CACHE : string := version ++ "-dynamic-news".

(** Lines 20-36: the promise given to [event.waitUntil]. *)
Definition install : Promise unit :=
  _ <- (cache <- caches_open STATIC_CACHE ;;
        catch (cache_addAll cache assets) (fun _ => resolve tt)) ;;
  skipWaiting.

(** Lines 50-56: the callback mapped over the store names; it returns the
    promise of the deletion, or [undefined]. *)
Definition sweep (cacheAllowList : list string) (cacheName : string)
    : Promise (option bool) :=
  if JS.indexOf cacheAllowList cacheName =? -1 then
    deleted <- caches_delete cacheName ;; resolve (Some deleted)
  else resolve None.

(** Lines 43-63: the promise given to [event.waitUntil]. *)
Definition activate : Promise unit :=
  let cacheAllowList := [STATIC_CACHE; NEWS_CACHE] in
  _ <- (cacheNames <- caches_keys ;;
        all (map (sweep cacheAllowList) cacheNames)) ;;
  clients_claim.

(** Line 77. *)
Definition isStaticAsset (req : Request) : bool :=
  JS.some assets
    (fun asset => JS.includes (url req) (JS.replace asset "/" EmptyString)).

(** The conditions of lines 72, 79, 93 and 116, in that order. *)
Definition route (req : Request) : Strategy :=
  if JS.startsWith (url req) "chrome-extension://" then Ignore
  else
    let pathname := URL.pathname (url req) in
    if isStaticAsset req || String.eqb pathname "/" then CacheFirst
    else if String.eqb (method req) "GET" && JS.startsWith pathname "/api/news"
         then NetworkFirst
         else NetworkOnly.

(** Lines 82-91. *)
Definition cacheFirst (req : Request) : Promise (option Response) :=
  catch
    (response <- caches_match req ;;
     match response with
     | Some stored => resolve (Some stored)
     | None => fetched <- fetch req ;; resolve (Some fetched)
     end)
    (fun _ => resolve None).

(** Lines 96-114.  Line 103 calls [caches.open] before the response is
    returned and drops the promise; the write of lines 104-106 waits for
    the store to be open, and nobody waits for it. *)
Definition networkFirst (req : Request) : Promise (option Response) :=
  catch
    (response <- fetch req ;;
     let responseClone := clone response in
     _ <- (if ok response then
             forget (cache <- caches_open NEWS_CACHE ;;
                     spawn (PutWhenOpen cache req responseClone))
           else resolve tt) ;;
     resolve (Some response))
    (fun _ => caches_match req).

(** Lines 70-120.  The last arm calls [fetch] and returns its promise to a
    caller that ignores it: no [respondWith]. *)
Definition intercept (req : Request) (h : Host) (w : Worker) : Outcome * Worker :=
  match route req with
  | Ignore => (NotHandled, w)
  | CacheFirst => respondWith (cacheFirst req) h w
  | NetworkFirst => respondWith (networkFirst req) h w
  | NetworkOnly => (NotHandled, snd (fetch req h w))
  end.

End Handlers.

(** ** The deployed worker (lines 1-14) *)

Definition CACHE_VERSION : string := "news-pwa-v1.0.0".

Definition ASSETS_TO_CACHE : list string :=
  [ "/"; "/index.html"; "https://cdn.tailwindcss.com" ].

Definition onInstall : Promise unit := install CACHE_VERSION ASSETS_TO_CACHE.
Definition onActivate : Promise unit := activate CACHE_VERSION.
Definition onFetch : Request -> Host -> Worker -> Outcome * Worker :=
  intercept CACHE_VERSION ASSETS_TO_CACHE.

(** ** The static-asset class as the specification words it *)

(** "With a leading path separator stripped": a separator is removed only
    when it is the first character. *)
Definition strip_leading_separator (s : string) : string :=
  match s with
  | String "/"%char s' => s'
  | _ => s
  end.

(** "The request's URL contains, as a substring, any entry from the fixed
    asset list (with a leading path separator stripped before comparison),
    or the request targets the root path." *)
Definition spec_static_class (assets : list string) (req : Request) : bool :=
  existsb (fun entry => JS.includes (url req) (strip_leading_separator entry)) assets
  || String.eqb (URL.pathname (url req)) "/".

(** The dynamic-news condition: a [GET] whose path begins with the API
    prefix. *)
Definition spec_dynamic_news (req : Request) : bool :=
  String.eqb (method req) "GET"
  && JS.startsWith (URL.pathname (url req)) "/api/news".

(** ** Observations on traces *)

Definition is_lookup (e : Effect) : bool :=
  match e with CachesMatch _ => true | _ => false end.

Definition is_write (e : Effect) : bool :=
  match e with CachePut _ _ | CacheAddAll _ _ => true | _ => false end.

Definition is_fetch (e : Effect) : bool :=
  match e with Fetch _ => true | _ => false end.

(** A fresh worker: no store, nothing done, nothing pending. *)
Definition fresh : Worker := {| caches := []; trace := []; detached := [] |}.

(** Look a store up by name. *)
Fixpoint store (name : string) (cs : CacheStorage)
    : option (Cache) :=
  match cs with
  | [] => None
  | (n, c) :: cs' => if String.eqb n name then Some c else store name cs'
  end.

(** The stores not called [name]. *)
Definition elsewhere (name : string) (cs : CacheStorage)
    : CacheStorage :=
  List.filter (fun kv => negb (String.eqb (fst kv) name)) cs.

(** ** Scenarios *)

Definition api_news_get : Request :=
  {| url := "https://example.com/api/news"; method := "GET" |}.

Definition api_news_post : Request :=
  {| url := "https://example.com/api/news"; method := "POST" |}.

Definition news_200 : Response := {| status := 200; body := "headlines" |}.

(** A host whose network answers every request with a 200. *)
Definition online : Host :=
  {| origin := "https://example.com";
     network := fun _ => Some news_200;
     open_ok := fun _ => true;
     put_ok := fun _ _ => true |}.

(** A host whose network is down. *)
Definition offline : Host :=
  {| origin := "https://example.com";
     network := fun _ => None;
     open_ok := fun _ => true;
     put_ok := fun _ _ => true |}.

Definition index_get : Request :=
  {| url := "https://example.com/index.html"; method := "GET" |}.

Definition extension_get : Request :=
  {| url := "chrome-extension://abcdef/api/news"; method := "GET" |}.

Definition shell_page : Response := {| status := 200; body := "<html>shell</html>" |}.

(** A host on which everything but the stylesheet CDN is reachable. *)
Definition cdn_down : Host :=
  {| origin := "https://example.com";
     network := fun req =>
       if String.eqb (url req) "https://cdn.tailwindcss.com" then None
       else Some shell_page;
     open_ok := fun _ => true;
     put_ok := fun _ _ => true |}.

(** A host that differs from [h] only in how its stores behave. *)
Definition with_storage (h : Host) (opens : string -> bool)
    (puts : string -> Request -> bool) : Host :=
  {| origin := origin h; network := network h; open_ok := opens; put_ok := puts |}.

(** The worker once installed and activated with every asset reachable. *)
Definition installed : Worker :=
  snd (onActivate online (snd (onInstall online fresh))).

(** A worker holding the shell document in its static store. *)
Definition with_shell : Worker :=
  {| caches :=
       [ (STATIC_CACHE CACHE_VERSION, {[ "https://example.com/index.html" := shell_page ]});
         (NEWS_CACHE CACHE_VERSION, ∅) ];
     trace := [];
     detached := [] |}.

(** A worker that still holds the stores of an earlier version. *)
Definition previous_version : string := "news-pwa-v0.9.0".

Definition upgrading : Worker :=
  {| caches :=
       [ (STATIC_CACHE previous_version, {[ "https://example.com/" := shell_page ]});
         (NEWS_CACHE previous_version, ∅);
         (STATIC_CACHE CACHE_VERSION, {[ "https://example.com/index.html" := shell_page ]}) ];
     trace := [];
     detached := [] |}.

(** The platform calls the fetch listener once per request; between two
    calls the promises the listener left on their own have settled. *)
Fixpoint serve (events : list (Request * Host)) (w : Worker) : Worker :=
  match events with
  | [] => w
  | (req, h) :: events' => serve events' (settle h (snd (onFetch req h w)))
  end.

(** An asset list of local paths only, without the root entry. *)
Definition paths_only : list string := [ "/index.html"; "/app.js" ].

Definition news_500 : Response := {| status := 500; body := "oops" |}.

(** A host whose network answers every request with a 500. *)
Definition failing_api : Host :=
  {| origin := "https://example.com";
     network := fun _ => Some news_500;
     open_ok := fun _ => true;
     put_ok := fun _ _ => true |}.

(** A host on which no store can be opened. *)
Definition no_storage : Host :=
  {| origin := "https://example.com";
     network := fun _ => Some shell_page;
     open_ok := fun _ => false;
     put_ok := fun _ _ => false |}.

(** An API call that mentions the shell document in its query string. *)
Definition api_about_index : Request :=
  {| url := "https://example.com/api/news?from=index.html"; method := "POST" |}.

(** A worker holding one news response in its dynamic store. *)
Definition with_news : Worker :=
  {| caches :=
       [ (STATIC_CACHE CACHE_VERSION, ∅);
         (NEWS_CACHE CACHE_VERSION, {[ "https://example.com/api/news" := news_200 ]}) ];
     trace := [];
     detached := [] |}.

(** * Properties *)

(** ** The primitives on the script's own literals *)

Example replace_root : JS.replace "/" "/" EmptyString = EmptyString.
Proof. reflexivity. Qed.

Example replace_index : JS.replace "/index.html" "/" EmptyString = "index.html".
Proof. reflexivity. Qed.

(** Only the first separator goes, wherever it stands. *)
Example replace_cdn :
  JS.replace "https://cdn.tailwindcss.com" "/" EmptyString
  = "https:/cdn.tailwindcss.com".
Proof. reflexivity. Qed.

Example strip_cdn :
  strip_leading_separator "https://cdn.tailwindcss.com"
  = "https://cdn.tailwindcss.com".
Proof. reflexivity. Qed.

Example indexOf_absent :
  JS.indexOf [STATIC_CACHE CACHE_VERSION; NEWS_CACHE CACHE_VERSION] "old" = -1.
Proof. reflexivity. Qed.

Example indexOf_second :
  JS.indexOf [STATIC_CACHE CACHE_VERSION; NEWS_CACHE CACHE_VERSION]
             (NEWS_CACHE CACHE_VERSION) = 1.
Proof. reflexivity. Qed.

Example pathname_root : URL.pathname "https://example.com" = "/".
Proof. reflexivity. Qed.

Example pathname_api :
  URL.pathname "https://example.com/api/news/latest?page=2" = "/api/news/latest".
Proof. reflexivity. Qed.

Example pathname_ext :
  URL.pathname "chrome-extension://abcdef/popup.html#x" = "/popup.html".
Proof. reflexivity. Qed.

(** ** Strings *)

Lemma includes_empty (s : string) : JS.includes s EmptyString = true.
Proof. destruct s; reflexivity. Qed.

Lemma prefix_spec (p t : string) :
  String.prefix p t = true <-> exists post, t = p ++ post.
Proof.
  revert t. induction p as [|c p IH]; intros t.
  - split; [intros _; by exists t | by destruct t].
  - destruct t as [|d t]; simpl.
    + split; [discriminate | intros (post & H); discriminate].
    + destruct (Ascii.ascii_dec c d) as [->|Hne].
      * split.
        -- intros H. apply IH in H as (post & ->). by exists post.
        -- intros (post & H). apply IH. exists post.
           change (String d t = String d (p ++ post)) in H. congruence.
      * split; [discriminate|]. intros (post & H).
        change (String d t = String c (p ++ post)) in H. congruence.
Qed.

Lemma includes_unfold (s sub : string) :
  JS.includes s sub
  = String.prefix sub s
    || match s with
       | EmptyString => false
       | String _ s' => JS.includes s' sub
       end.
Proof. by destruct s. Qed.

Lemma includes_spec (s sub : string) :
  JS.includes s sub = true <-> exists pre post, s = pre ++ sub ++ post.
Proof.
  split.
  - induction s as [|c s IH]; intros H;
      apply orb_prop in H as [H|H]; try discriminate.
    + apply prefix_spec in H as (post & ->). by exists EmptyString, post.
    + apply prefix_spec in H as (post & ->). by exists EmptyString, post.
    + destruct (IH H) as (pre & post & ->). by exists (String c pre), post.
  - intros (pre & post & ->). induction pre as [|c pre IH].
    + change (EmptyString ++ sub ++ post) with (sub ++ post).
      rewrite includes_unfold.
      replace (String.prefix sub (sub ++ post)) with true; [done|].
      symmetry. apply prefix_spec. eauto.
    + change (String c pre ++ sub ++ post) with (String c (pre ++ sub ++ post)).
      rewrite includes_unfold, IH. apply orb_true_r.
Qed.

(** ** The fetch listener *)

Lemma clone_eq (r : Response) : clone r = r.
Proof. by destruct r. Qed.

Section Routing.

Variable assets : list string.

(** An asset list that holds the root entry makes line 77 true of every
    request: the entry becomes the empty string, which every URL includes. *)
Lemma isStaticAsset_root (req : Request) :
  In "/" assets -> isStaticAsset assets req = true.
Proof.
  intros Hin. unfold isStaticAsset, JS.some. apply existsb_exists.
  exists "/". split; [exact Hin|]. apply includes_empty.
Qed.

Lemma route_root (req : Request) :
  In "/" assets ->
  route assets req
  = if JS.startsWith (url req) "chrome-extension://" then Ignore else CacheFirst.
Proof.
  intros Hin. unfold route. rewrite (isStaticAsset_root req Hin). reflexivity.
Qed.

End Routing.

Lemma root_in_assets : In "/" ASSETS_TO_CACHE.
Proof. left. reflexivity. Qed.

Lemma cacheFirst_hit (req : Request) (h : Host) (w : Worker) (stored : Response) :
  storage_match (caches w) req = Some stored ->
  respondWith (cacheFirst req) h w
  = (RespondWith (Some stored), log (CachesMatch req) w).
Proof.
  intros Hm. unfold respondWith, cacheFirst, catch, then_, caches_match.
  rewrite Hm. reflexivity.
Qed.

Lemma cacheFirst_miss (req : Request) (h : Host) (w : Worker) :
  storage_match (caches w) req = None ->
  respondWith (cacheFirst req) h w
  = (RespondWith (network h req), log (Fetch req) (log (CachesMatch req) w)).
Proof.
  intros Hm. unfold respondWith, cacheFirst, catch, then_, caches_match, fetch.
  rewrite Hm. destruct (network h req); reflexivity.
Qed.

(** The cache-first arm never touches the stores and leaves nothing
    pending, whatever the lookup and the network answer. *)
Lemma cacheFirst_frame (req : Request) (h : Host) (w : Worker) :
  caches (snd (respondWith (cacheFirst req) h w)) = caches w
  /\ detached (snd (respondWith (cacheFirst req) h w)) = detached w
  /\ exists rest, trace (snd (respondWith (cacheFirst req) h w))
                  = (trace w ++ CachesMatch req :: rest)%list
                  /\ forallb (fun e => negb (is_write e)) rest = true.
Proof.
  destruct (storage_match (caches w) req) as [stored|] eqn:Hm.
  - rewrite (cacheFirst_hit req h w stored Hm). simpl.
    split; [done|]. split; [done|]. by exists [].
  - rewrite (cacheFirst_miss req h w Hm). simpl.
    split; [done|]. split; [done|]. exists [Fetch req].
    by rewrite <- app_assoc.
Qed.

(** Every request the deployed worker does not ignore is answered by the
    cache-first arm. *)
Lemma onFetch_cacheFirst (req : Request) (h : Host) (w : Worker) :
  JS.startsWith (url req) "chrome-extension://" = false ->
  onFetch req h w = respondWith (cacheFirst req) h w.
Proof.
  intros Hext. unfold onFetch, intercept.
  rewrite (route_root ASSETS_TO_CACHE req root_in_assets), Hext. reflexivity.
Qed.

Lemma onFetch_unfold (req : Request) (h : Host) (w : Worker) :
  onFetch req h w
  = if JS.startsWith (url req) "chrome-extension://" then (NotHandled, w)
    else respondWith (cacheFirst req) h w.
Proof.
  unfold onFetch, intercept.
  rewrite (route_root ASSETS_TO_CACHE req root_in_assets).
  by destruct (JS.startsWith (url req) "chrome-extension://").
Qed.

(** C9: the asset list holds the root entry ["/"], and removing its first
    separator leaves the empty string, so line 77 is true of every request
    URL; every request that passes the extension guard is routed to the
    cache-first arm, and no request reaches the network-first or the
    default arm. *)
Theorem C9_every_request_is_static (req : Request) (h : Host) (w : Worker) :
  In "/" ASSETS_TO_CACHE
  /\ JS.replace "/" "/" EmptyString = EmptyString
  /\ isStaticAsset ASSETS_TO_CACHE req = true
  /\ route ASSETS_TO_CACHE req
     = (if JS.startsWith (url req) "chrome-extension://" then Ignore else CacheFirst)
  /\ route ASSETS_TO_CACHE req <> NetworkFirst
  /\ route ASSETS_TO_CACHE req <> NetworkOnly
  /\ onFetch req h w
     = (if JS.startsWith (url req) "chrome-extension://" then (NotHandled, w)
        else respondWith (cacheFirst req) h w).
Proof.
  pose proof (route_root ASSETS_TO_CACHE req root_in_assets) as Hr.
  split; [exact root_in_assets|]. split; [reflexivity|].
  split; [exact (isStaticAsset_root ASSETS_TO_CACHE req root_in_assets)|].
  split; [exact Hr|]. rewrite Hr.
  split; [by destruct (JS.startsWith (url req) "chrome-extension://")|].
  split; [by destruct (JS.startsWith (url req) "chrome-extension://")|].
  apply onFetch_unfold.
Qed.

(** The two readings of the static-asset condition, the script's (first
    separator removed, line 77 and 79) and the specification's (leading
    separator stripped), agree on the deployed asset list. *)
Lemma static_condition_agrees (req : Request) :
  isStaticAsset ASSETS_TO_CACHE req || String.eqb (URL.pathname (url req)) "/"
  = spec_static_class ASSETS_TO_CACHE req.
Proof.
  rewrite (isStaticAsset_root ASSETS_TO_CACHE req root_in_assets).
  unfold spec_static_class, ASSETS_TO_CACHE. simpl.
  by rewrite includes_empty.
Qed.

(** C1: a request that passes the extension guard is sent to the
    cache-first arm exactly when its URL includes some entry of the asset
    list with the leading separator stripped or its path is the root path;
    and when that holds the network-first arm is not taken, whether or not
    the request is a GET under the API prefix: the listener does what the
    cache-first arm does. *)
Theorem C1_static_class_checked_first (req : Request) (h : Host) (w : Worker) :
  JS.startsWith (url req) "chrome-extension://" = false ->
  (route ASSETS_TO_CACHE req = CacheFirst
   <-> spec_static_class ASSETS_TO_CACHE req = true)
  /\ (spec_static_class ASSETS_TO_CACHE req = true ->
      route ASSETS_TO_CACHE req <> NetworkFirst
      /\ onFetch req h w = respondWith (cacheFirst req) h w).
Proof.
  intros Hext. unfold route. rewrite Hext. cbv zeta.
  rewrite static_condition_agrees. split.
  - destruct (spec_static_class ASSETS_TO_CACHE req); [done|].
    split; [|discriminate].
    destruct (String.eqb (method req) "GET"
              && JS.startsWith (URL.pathname (url req)) "/api/news"); discriminate.
  - intros ->. split; [discriminate|]. by apply onFetch_cacheFirst.
Qed.

Lemma C1_witness :
  JS.startsWith (url api_news_get) "chrome-extension://" = false
  /\ spec_dynamic_news api_news_get = true
  /\ (route ASSETS_TO_CACHE api_news_get = CacheFirst
      <-> spec_static_class ASSETS_TO_CACHE api_news_get = true)
  /\ (spec_static_class ASSETS_TO_CACHE api_news_get = true ->
      route ASSETS_TO_CACHE api_news_get <> NetworkFirst
      /\ onFetch api_news_get online fresh
         = respondWith (cacheFirst api_news_get) online fresh).
Proof.
  split; [reflexivity|]. split; [reflexivity|].
  apply (C1_static_class_checked_first api_news_get online fresh). reflexivity.
Defined.

Section Interception.

Variable version : string.
Variable assets : list string.

(** C8: a request whose URL starts with the extension scheme makes the
    listener return at once: no [respondWith], no store lookup, no store
    write, no fetch, nothing left pending; the worker is as it was. *)
Theorem C8_extension_requests_untouched (req : Request) (h : Host) (w : Worker) :
  JS.startsWith (url req) "chrome-extension://" = true ->
  route assets req = Ignore
  /\ intercept version assets req h w = (NotHandled, w).
Proof.
  intros Hext. unfold intercept, route. by rewrite Hext.
Qed.

(** C6: a request sent to the cache-first arm for which the stores hold an
    entry is answered with that very entry; the lookup is the only thing
    asked of the host (no fetch), and the stores are as they were. *)
Theorem C6_stored_entry_served (req : Request) (h : Host) (w : Worker)
    (stored : Response) :
  route assets req = CacheFirst ->
  storage_match (caches w) req = Some stored ->
  fst (intercept version assets req h w) = RespondWith (Some stored)
  /\ trace (snd (intercept version assets req h w))
     = (trace w ++ [CachesMatch req])%list
  /\ List.filter is_fetch (trace (snd (intercept version assets req h w)))
     = List.filter is_fetch (trace w)
  /\ caches (snd (intercept version assets req h w)) = caches w
  /\ detached (snd (intercept version assets req h w)) = detached w.
Proof.
  intros Hr Hm. unfold intercept. rewrite Hr, (cacheFirst_hit req h w stored Hm).
  simpl. repeat split. rewrite List.filter_app. simpl. apply app_nil_r.
Qed.

(** C7: a request sent to the cache-first arm for which the stores hold no
    entry is fetched, once, after the lookup; what the network answers is
    what the page gets (a failed fetch is a failed request); nothing is
    written to any store and no write is left pending. *)
Theorem C7_missing_entry_fetched (req : Request) (h : Host) (w : Worker) :
  route assets req = CacheFirst ->
  storage_match (caches w) req = None ->
  fst (intercept version assets req h w) = RespondWith (network h req)
  /\ trace (snd (intercept version assets req h w))
     = (trace w ++ [CachesMatch req; Fetch req])%list
  /\ caches (snd (intercept version assets req h w)) = caches w
  /\ detached (snd (intercept version assets req h w)) = detached w.
Proof.
  intros Hr Hm. unfold intercept. rewrite Hr, (cacheFirst_miss req h w Hm).
  simpl. repeat split. by rewrite <- app_assoc.
Qed.

End Interception.

(** ** Store names *)

Lemma chars_app (a b : string) :
  list_ascii_of_string (a ++ b)
  = (list_ascii_of_string a ++ list_ascii_of_string b)%list.
Proof.
  induction a as [|c a IH]; [reflexivity|].
  change (String c a ++ b) with (String c (a ++ b)). simpl. by rewrite IH.
Qed.

Lemma chars_inj (a b : string) :
  list_ascii_of_string a = list_ascii_of_string b -> a = b.
Proof.
  intros H. rewrite <- (string_of_list_ascii_of_string a),
    <- (string_of_list_ascii_of_string b). by rewrite H.
Qed.

(** Two names that end in the same suffix come from the same version tag. *)
Lemma suffix_cancel (a b suffix : string) : a ++ suffix = b ++ suffix -> a = b.
Proof.
  intros H. apply chars_inj.
  apply (f_equal list_ascii_of_string) in H. rewrite !chars_app in H.
  by apply app_inj_2 in H as [H _].
Qed.

(** No name is a static-assets name and a dynamic-news name at once: the
    two suffixes already differ in their last thirteen characters. *)
Lemma static_is_not_news (a b : string) : STATIC_CACHE a <> NEWS_CACHE b.
Proof.
  unfold STATIC_CACHE, NEWS_CACHE. intros H.
  apply (f_equal list_ascii_of_string) in H. rewrite !chars_app in H.
  change (list_ascii_of_string "-static-assets")
    with (list_ascii_of_string "-" ++ list_ascii_of_string "static-assets")%list in H.
  rewrite app_assoc in H.
  apply app_inj_2 in H as [_ H]; [discriminate | reflexivity].
Qed.

Lemma static_name_inj (a b : string) : STATIC_CACHE a = STATIC_CACHE b -> a = b.
Proof. apply suffix_cancel. Qed.

Lemma news_name_inj (a b : string) : NEWS_CACHE a = NEWS_CACHE b -> a = b.
Proof. apply suffix_cancel. Qed.

(** ** The activate listener *)

(** Line 51 on a two-entry allow-list. *)
Lemma indexOf_pair (a b x : string) :
  (JS.indexOf [a; b] x =? -1) = negb (String.eqb x a || String.eqb x b).
Proof.
  unfold JS.indexOf. simpl.
  rewrite (String.eqb_sym x a), (String.eqb_sym x b).
  destruct (String.eqb a x); [reflexivity|].
  destruct (String.eqb b x); reflexivity.
Qed.

Lemma filter_all {A} (l : list A) : List.filter (fun _ => true) l = l.
Proof. induction l as [|x l IH]; simpl; congruence. Qed.

Lemma filter_twice {A} (p q : A -> bool) (l : list A) :
  List.filter q (List.filter p l) = List.filter (fun x => p x && q x) l.
Proof.
  induction l as [|x l IH]; [reflexivity|]. simpl.
  destruct (p x); simpl; [destruct (q x)|]; by rewrite IH.
Qed.

(** Looking a store up by name after a filter on names. *)
Lemma store_filter (p : string -> bool) (name : string)
    (cs : CacheStorage) :
  store name (List.filter (fun kv => p (fst kv)) cs)
  = if p name then store name cs else None.
Proof.
  induction cs as [|[n c] cs IH]; simpl.
  - by destruct (p name).
  - destruct (String.eqb_spec n name) as [->|Hne].
    + destruct (p name) eqn:Hp; simpl.
      * by rewrite String.eqb_refl.
      * exact IH.
    + destruct (p n); simpl; [|exact IH].
      destruct (String.eqb_spec n name); [congruence | exact IH].
Qed.

(** Running the callback over any list of names deletes the stores whose
    name is on that list and off the allow-list, in order, and nothing
    else. *)
Lemma all_sweep (cacheAllowList names : list string) (h : Host) (w : Worker) :
  exists results,
    all (map (sweep cacheAllowList) names) h w
    = (Fulfilled results,
       {| caches :=
            List.filter
              (fun kv =>
                 negb (existsb (fun n => (JS.indexOf cacheAllowList n =? -1)
                                         && String.eqb (fst kv) n) names))
              (caches w);
          trace :=
            trace w
            ++ map CachesDelete
                 (List.filter (fun n => JS.indexOf cacheAllowList n =? -1) names);
          detached := detached w |}).
Proof.
  revert w. induction names as [|n names IH]; intros w.
  - exists []. simpl. rewrite filter_all, app_nil_r. by destruct w.
  - simpl. unfold sweep at 1.
    destruct (JS.indexOf cacheAllowList n =? -1) eqn:Hn.
    + unfold then_, caches_delete, resolve.
      match goal with
      | |- context [all (map (sweep cacheAllowList) names) h ?w'] =>
          destruct (IH w') as [results ->]
      end.
      eexists. f_equal. simpl. f_equal.
      * rewrite filter_twice. apply List.filter_ext. intros kv.
        by rewrite negb_orb.
      * by rewrite <- app_assoc.
    + unfold resolve. destruct (IH w) as [results ->].
      eexists. reflexivity.
Qed.

(** The activate listener resolves, keeps exactly the stores whose name is
    one of the two current names, and asks the host for the names once and
    then for one deletion per stale store. *)
Lemma activate_sweeps (version : string) (h : Host) (w : Worker) :
  activate version h w
  = (Fulfilled tt,
     {| caches :=
          List.filter
            (fun kv => String.eqb (fst kv) (STATIC_CACHE version)
                       || String.eqb (fst kv) (NEWS_CACHE version))
            (caches w);
        trace :=
          trace w
          ++ CachesKeys
             :: map CachesDelete
                  (List.filter
                     (fun n => negb (String.eqb n (STATIC_CACHE version)
                                     || String.eqb n (NEWS_CACHE version)))
                     (map fst (caches w)))
          ++ [ClientsClaim];
        detached := detached w |}).
Proof.
  unfold activate, then_ at 1 2, caches_keys. cbv zeta.
  destruct (all_sweep [STATIC_CACHE version; NEWS_CACHE version]
              (map fst (caches w)) h (log CachesKeys w)) as [results Hres].
  cbv zeta in Hres. rewrite Hres. unfold clients_claim, log. simpl.
  f_equal. f_equal.
  - apply List.filter_ext_in. intros [n c] Hin. cbn [fst].
    rewrite <- (negb_involutive (String.eqb n _ || _)), <- indexOf_pair. f_equal.
    destruct (JS.indexOf [STATIC_CACHE version; NEWS_CACHE version] n =? -1) eqn:Hn.
    + apply existsb_exists. exists n. split.
      * apply in_map_iff. by exists (n, c).
      * by rewrite Hn, String.eqb_refl.
    + apply not_true_iff_false. intros Hex.
      apply existsb_exists in Hex as (m & _ & Hm).
      apply andb_prop in Hm as [Hs He]. apply String.eqb_eq in He as <-.
      congruence.
  - rewrite (List.filter_ext _ _
               (indexOf_pair (STATIC_CACHE version) (NEWS_CACHE version))).
    by rewrite <- !app_assoc.
Qed.

(** C5: whatever stores exist, activating the worker of version [v2]
    resolves; the stores left are exactly those named by one of the two
    current names, each with its content, in their order; the deletions
    asked of the host are exactly those of the other names.  So the two
    stores of any other version [v1] are gone and the two of [v2] are
    what they were. *)
Theorem C5_activate_keeps_current_stores (v1 v2 : string) (h : Host) (w : Worker) :
  v1 <> v2 ->
  fst (activate v2 h w) = Fulfilled tt
  /\ caches (snd (activate v2 h w))
     = List.filter
         (fun kv => String.eqb (fst kv) (STATIC_CACHE v2)
                    || String.eqb (fst kv) (NEWS_CACHE v2))
         (caches w)
  /\ List.filter (fun e => match e with CachesDelete _ => true | _ => false end)
       (trace (snd (activate v2 h w)))
     = (List.filter (fun e => match e with CachesDelete _ => true | _ => false end)
          (trace w)
        ++ map CachesDelete
             (List.filter
                (fun n => negb (String.eqb n (STATIC_CACHE v2)
                                || String.eqb n (NEWS_CACHE v2)))
                (map fst (caches w))))%list
  /\ store (STATIC_CACHE v1) (caches (snd (activate v2 h w))) = None
  /\ store (NEWS_CACHE v1) (caches (snd (activate v2 h w))) = None
  /\ store (STATIC_CACHE v2) (caches (snd (activate v2 h w)))
     = store (STATIC_CACHE v2) (caches w)
  /\ store (NEWS_CACHE v2) (caches (snd (activate v2 h w)))
     = store (NEWS_CACHE v2) (caches w).
Proof.
  intros Hv. rewrite activate_sweeps. simpl.
  split; [reflexivity|]. split; [reflexivity|]. split.
  { rewrite List.filter_app. f_equal. simpl. rewrite List.filter_app. simpl.
    rewrite app_nil_r.
    generalize (List.filter
                  (fun n => negb (String.eqb n (STATIC_CACHE v2)
                                  || String.eqb n (NEWS_CACHE v2)))
                  (map fst (caches w))).
    intros l. induction l as [|n l IH]; simpl; congruence. }
  rewrite !(store_filter
              (fun n => String.eqb n (STATIC_CACHE v2) || String.eqb n (NEWS_CACHE v2))).
  rewrite !String.eqb_refl, orb_true_r. simpl.
  assert (String.eqb (STATIC_CACHE v1) (STATIC_CACHE v2) = false) as ->.
  { apply String.eqb_neq. intros H. by apply static_name_inj in H. }
  assert (String.eqb (STATIC_CACHE v1) (NEWS_CACHE v2) = false) as ->.
  { apply String.eqb_neq. apply static_is_not_news. }
  assert (String.eqb (NEWS_CACHE v1) (STATIC_CACHE v2) = false) as ->.
  { apply String.eqb_neq. intros H. symmetry in H. by apply static_is_not_news in H. }
  assert (String.eqb (NEWS_CACHE v1) (NEWS_CACHE v2) = false) as ->.
  { apply String.eqb_neq. intros H. by apply news_name_inj in H. }
  by repeat split.
Qed.

Lemma C5_witness :
  previous_version <> CACHE_VERSION
  /\ map fst (caches (snd (activate CACHE_VERSION online upgrading)))
     = [STATIC_CACHE CACHE_VERSION]
  /\ store (STATIC_CACHE previous_version)
       (caches (snd (activate CACHE_VERSION online upgrading))) = None
  /\ store (STATIC_CACHE CACHE_VERSION)
       (caches (snd (activate CACHE_VERSION online upgrading)))
     = Some {[ "https://example.com/index.html" := shell_page ]}.
Proof.
  assert (previous_version <> CACHE_VERSION) as Hne by discriminate.
  destruct (C5_activate_keeps_current_stores
              previous_version CACHE_VERSION online upgrading Hne)
    as (_ & Hc & _ & Hold & _ & Hcur & _).
  split; [exact Hne|]. split; [by rewrite Hc|]. split; [exact Hold|].
  rewrite Hcur. reflexivity.
Defined.

Lemma C8_witness :
  JS.startsWith (url extension_get) "chrome-extension://" = true
  /\ route ASSETS_TO_CACHE extension_get = Ignore
  /\ onFetch extension_get online with_shell = (NotHandled, with_shell).
Proof.
  split; [reflexivity|].
  apply (C8_extension_requests_untouched CACHE_VERSION ASSETS_TO_CACHE).
  reflexivity.
Defined.

Lemma C6_witness :
  route ASSETS_TO_CACHE index_get = CacheFirst
  /\ storage_match (caches with_shell) index_get = Some shell_page
  /\ fst (onFetch index_get offline with_shell) = RespondWith (Some shell_page)
  /\ List.filter is_fetch (trace (snd (onFetch index_get offline with_shell))) = [].
Proof.
  assert (route ASSETS_TO_CACHE index_get = CacheFirst) as Hr by reflexivity.
  assert (storage_match (caches with_shell) index_get = Some shell_page) as Hm
    by reflexivity.
  destruct (C6_stored_entry_served CACHE_VERSION ASSETS_TO_CACHE
              index_get offline with_shell shell_page Hr Hm)
    as (Hout & _ & Hfetch & _).
  split; [exact Hr|]. split; [exact Hm|]. split; [exact Hout|exact Hfetch].
Defined.

Lemma C7_witness :
  route ASSETS_TO_CACHE api_news_get = CacheFirst
  /\ storage_match (caches with_shell) api_news_get = None
  /\ fst (onFetch api_news_get online with_shell) = RespondWith (Some news_200)
  /\ trace (snd (onFetch api_news_get online with_shell))
     = [CachesMatch api_news_get; Fetch api_news_get]
  /\ caches (snd (onFetch api_news_get online with_shell)) = caches with_shell.
Proof.
  assert (route ASSETS_TO_CACHE api_news_get = CacheFirst) as Hr by reflexivity.
  assert (storage_match (caches with_shell) api_news_get = None) as Hm
    by reflexivity.
  destruct (C7_missing_entry_fetched CACHE_VERSION ASSETS_TO_CACHE
              api_news_get online with_shell Hr Hm)
    as (Hout & Htr & Hc & _).
  split; [exact Hr|]. split; [exact Hm|]. split; [exact Hout|].
  split; [exact Htr|exact Hc].
Defined.

(** ** The network-first arm *)

Lemma storage_match_opened (name : string) (cs : CacheStorage) (q : Request) :
  storage_match (cs ++ [(name, ∅)]) q = storage_match cs q.
Proof.
  induction cs as [|[n c] cs IH]; simpl.
  - unfold cache_match. by destruct (String.eqb (method q) "GET").
  - by rewrite IH.
Qed.

(** The network-first arm when the network answers: the response goes
    to the page; an ok response has the store opened on the spot and the
    write left for later. *)
Lemma networkFirst_online (version : string) (req : Request) (r : Response)
    (h : Host) (w : Worker) :
  network h req = Some r ->
  respondWith (networkFirst version req) h w
  = (RespondWith (Some r),
     {| caches :=
          if ok r && open_ok h (NEWS_CACHE version)
             && negb (has_cache (NEWS_CACHE version) (caches w))
          then caches w ++ [(NEWS_CACHE version, ∅)] else caches w;
        trace :=
          trace w ++ Fetch req :: (if ok r then [CachesOpen (NEWS_CACHE version)] else []);
        detached :=
          detached w
          ++ (if ok r && open_ok h (NEWS_CACHE version)
              then [PutWhenOpen (NEWS_CACHE version) req (clone r)] else []) |}).
Proof.
  intros Hnet.
  unfold respondWith, networkFirst, catch, then_, fetch, forget, caches_open, spawn.
  rewrite Hnet. cbv zeta.
  destruct (ok r); simpl; [|by rewrite app_nil_r].
  destruct (open_ok h (NEWS_CACHE version)); simpl;
    [destruct (has_cache (NEWS_CACHE version) (caches w))|];
    unfold log; simpl; by rewrite <- ?app_assoc, ?app_nil_r.
Qed.

Lemma networkFirst_offline (version : string) (req : Request) (h : Host) (w : Worker) :
  network h req = None ->
  respondWith (networkFirst version req) h w
  = (RespondWith (storage_match (caches w) req),
     log (CachesMatch req) (log (Fetch req) w)).
Proof.
  intros Hnet. unfold respondWith, networkFirst, catch, then_, fetch.
  rewrite Hnet. reflexivity.
Qed.

(** C10: in the network-first arm the page gets the response the network
    gave.  By then the script has asked for the dynamic-news store to be
    opened (line 103, for an ok response) and has written nothing: the
    trace holds the fetch and the open only, every lookup finds what it
    found before, and the write sits in a callback nobody waits for.  The
    response is the same however opening the store or writing to it turns
    out. *)
Theorem C10_write_is_not_awaited (version : string) (req : Request) (r : Response)
    (h : Host) (w : Worker) :
  network h req = Some r ->
  fst (respondWith (networkFirst version req) h w) = RespondWith (Some r)
  /\ trace (snd (respondWith (networkFirst version req) h w))
     = (trace w
        ++ Fetch req :: (if ok r then [CachesOpen (NEWS_CACHE version)] else []))%list
  /\ (forall q,
        storage_match (caches (snd (respondWith (networkFirst version req) h w))) q
        = storage_match (caches w) q)
  /\ detached (snd (respondWith (networkFirst version req) h w))
     = (detached w
        ++ (if ok r && open_ok h (NEWS_CACHE version)
            then [PutWhenOpen (NEWS_CACHE version) req (clone r)] else []))%list
  /\ forall opens puts,
       fst (respondWith (networkFirst version req) (with_storage h opens puts) w)
       = RespondWith (Some r).
Proof.
  intros Hnet. rewrite (networkFirst_online version req r h w Hnet).
  cbn [fst snd caches trace detached].
  split; [reflexivity|]. split; [reflexivity|]. split; [|split; [reflexivity|]].
  - intros q.
    destruct (ok r && open_ok h (NEWS_CACHE version)
              && negb (has_cache (NEWS_CACHE version) (caches w)));
      [apply storage_match_opened | reflexivity].
  - intros opens puts.
    by rewrite (networkFirst_online version req r (with_storage h opens puts) w Hnet).
Qed.

Lemma C10_witness :
  network online api_news_get = Some news_200
  /\ fst (respondWith (networkFirst CACHE_VERSION api_news_get) online with_shell)
     = RespondWith (Some news_200)
  /\ trace (snd (respondWith (networkFirst CACHE_VERSION api_news_get) online with_shell))
     = [Fetch api_news_get; CachesOpen (NEWS_CACHE CACHE_VERSION)]
  /\ detached (snd (respondWith (networkFirst CACHE_VERSION api_news_get) online with_shell))
     = [PutWhenOpen (NEWS_CACHE CACHE_VERSION) api_news_get news_200]
  /\ fst (respondWith (networkFirst CACHE_VERSION api_news_get)
            (with_storage online (fun _ => false) (fun _ _ => false)) with_shell)
     = RespondWith (Some news_200).
Proof.
  assert (network online api_news_get = Some news_200) as Hnet by reflexivity.
  destruct (C10_write_is_not_awaited CACHE_VERSION api_news_get news_200
              online with_shell Hnet)
    as (Hout & Htr & _ & Hdet & Hany).
  split; [exact Hnet|]. split; [exact Hout|]. split; [exact Htr|].
  split; [exact Hdet|]. apply Hany.
Defined.

(** ** What the deployed listener does to every request *)

(** Every request that passes the extension guard costs a store lookup. *)
Lemma onFetch_always_looks_up (req : Request) (h : Host) (w : Worker) :
  JS.startsWith (url req) "chrome-extension://" = false ->
  exists rest,
    trace (snd (onFetch req h w)) = (trace w ++ CachesMatch req :: rest)%list.
Proof.
  intros Hext. rewrite (onFetch_cacheFirst req h w Hext).
  destruct (cacheFirst_frame req h w) as (_ & _ & rest & Hrest & _).
  by exists rest.
Qed.

(** No request ever changes a store or leaves a write pending. *)
Lemma onFetch_never_stores (req : Request) (h : Host) (w : Worker) :
  caches (snd (onFetch req h w)) = caches w
  /\ detached (snd (onFetch req h w)) = detached w.
Proof.
  rewrite onFetch_unfold.
  destruct (JS.startsWith (url req) "chrome-extension://"); [done|].
  destruct (cacheFirst_frame req h w) as (Hc & Hd & _). by split.
Qed.

(** C2, on the code: a POST under the API prefix is not passed through.
    The listener answers it itself through the cache-first arm, which
    asks the stores for a match before it fetches. *)
Theorem C2_post_under_api_prefix_is_looked_up :
  String.eqb (method api_news_post) "GET" = false
  /\ JS.startsWith (URL.pathname (url api_news_post)) "/api/news" = true
  /\ route ASSETS_TO_CACHE api_news_post = CacheFirst
  /\ onFetch api_news_post online installed
     = (RespondWith (Some news_200),
        log (Fetch api_news_post) (log (CachesMatch api_news_post) installed))
  /\ List.filter is_lookup (trace (snd (onFetch api_news_post online installed)))
     = [CachesMatch api_news_post].
Proof. repeat split; vm_compute; reflexivity. Qed.

(** C3, on the code: a GET under the API prefix whose fetch returns a 200
    is answered with it, but through the cache-first arm: nothing is
    written and no write is pending, the dynamic-news store does not even
    exist afterwards, and the same request with the network down gets no
    response. *)
Theorem C3_news_response_is_not_stored :
  spec_dynamic_news api_news_get = true
  /\ network online api_news_get = Some news_200
  /\ ok news_200 = true
  /\ fst (onFetch api_news_get online installed) = RespondWith (Some news_200)
  /\ caches (snd (onFetch api_news_get online installed)) = caches installed
  /\ detached (snd (onFetch api_news_get online installed)) = []
  /\ store (NEWS_CACHE CACHE_VERSION)
       (caches (settle online (snd (onFetch api_news_get online installed)))) = None
  /\ fst (onFetch api_news_get offline
            (settle online (snd (onFetch api_news_get online installed))))
     = RespondWith None.
Proof. repeat split; vm_compute; reflexivity. Qed.

(** ** The install listener *)

Section Install.

Variable version : string.
Variable assets : list string.

(** The rejection of [addAll] is caught: once the store is open, install
    resolves whatever the network does. *)
Lemma install_resolves (h : Host) (w : Worker) :
  open_ok h (STATIC_CACHE version) = true ->
  fst (install version assets h w) = Fulfilled tt.
Proof.
  intros Hopen. unfold install, then_ at 1 2, caches_open. cbv zeta.
  rewrite Hopen. unfold catch.
  destruct (cache_addAll _ _ _ _) as [[[]|] w']; reflexivity.
Qed.

(** [addAll] writes all the entries or none: when one asset cannot be
    fetched, install leaves the stores as opening the static store left
    them. *)
Lemma install_all_or_nothing (h : Host) (w : Worker) :
  fetch_batch h (map (request_of h) assets) = None ->
  caches (snd (install version assets h w))
  = caches (snd (caches_open (STATIC_CACHE version) h w)).
Proof.
  intros Hbatch. unfold install, then_ at 1 2.
  destruct (caches_open (STATIC_CACHE version) h w) as [[name|] w1]; [|reflexivity].
  unfold catch, cache_addAll. cbv zeta. rewrite Hbatch. simpl.
  assert (forall reqs w0,
            caches (fold_left (fun w req => log (Fetch req) w) reqs w0) = caches w0)
    as Hlog.
  { intros reqs. induction reqs as [|req reqs IH]; intros w0; simpl; [done|].
    by rewrite IH. }
  rewrite Hlog. reflexivity.
Qed.

End Install.

(** C4, on the code: with the stylesheet CDN unreachable, install resolves,
    yet the static store it opened holds nothing: neither the root nor the
    shell document, both of which were fetched, is there to be matched. *)
Theorem C4_unreachable_asset_empties_install :
  network cdn_down (request_of cdn_down "https://cdn.tailwindcss.com") = None
  /\ network cdn_down (request_of cdn_down "/") = Some shell_page
  /\ network cdn_down (request_of cdn_down "/index.html") = Some shell_page
  /\ fst (onInstall cdn_down fresh) = Fulfilled tt
  /\ caches (snd (onInstall cdn_down fresh)) = [(STATIC_CACHE CACHE_VERSION, ∅)]
  /\ storage_match (caches (snd (onInstall cdn_down fresh)))
       (request_of cdn_down "/") = None
  /\ storage_match (caches (snd (onInstall cdn_down fresh)))
       (request_of cdn_down "/index.html") = None.
Proof. repeat split; vm_compute; reflexivity. Qed.

(** ** The network-first arm on its own

    Were a request to reach lines 96-114, the arm would do what its
    comments say: store an ok response and serve it when the network is
    down, once the detached write has gone through. *)

Lemma match_after_put (name : string) (req : Request) (r : Response)
    (cs : CacheStorage) :
  method req = "GET" ->
  has_cache name cs = true ->
  storage_match (elsewhere name cs) req = None ->
  storage_match (update_cache name (insert (url req) r) cs) req = Some r.
Proof.
  intros Hget. induction cs as [|[n c] cs IH]; simpl; [discriminate|].
  destruct (String.eqb n name) eqn:Hn; simpl.
  - intros _ _. unfold cache_match. rewrite Hget. simpl.
    by rewrite lookup_insert_eq.
  - intros Hhas Hno. destruct (cache_match c req); [discriminate|]. by apply IH.
Qed.

Lemma has_cache_opened (name : string) (cs : CacheStorage) :
  has_cache name (cs ++ [(name, ∅)]) = true.
Proof.
  unfold has_cache. rewrite existsb_app. simpl.
  rewrite String.eqb_refl. apply orb_true_iff. right. reflexivity.
Qed.

Lemma elsewhere_opened (name : string) (cs : CacheStorage) :
  elsewhere name (cs ++ [(name, ∅)]) = elsewhere name cs.
Proof.
  unfold elsewhere. rewrite List.filter_app. simpl.
  rewrite String.eqb_refl. simpl. apply app_nil_r.
Qed.

Lemma networkFirst_serves_stale (version : string) (req : Request) (r : Response)
    (h h' : Host) (w : Worker) :
  method req = "GET" ->
  network h req = Some r ->
  ok r = true ->
  open_ok h (NEWS_CACHE version) = true ->
  put_ok h (NEWS_CACHE version) req = true ->
  detached w = [] ->
  storage_match (elsewhere (NEWS_CACHE version) (caches w)) req = None ->
  network h' req = None ->
  fst (respondWith (networkFirst version req) h'
         (settle h (snd (respondWith (networkFirst version req) h w))))
  = RespondWith (Some r).
Proof.
  intros Hget Hnet Hok Hopen Hput Hdet Hno Hdown.
  rewrite (networkFirst_online version req r h w Hnet), Hok, Hdet, clone_eq.
  rewrite (networkFirst_offline version req h' _ Hdown).
  unfold settle, run_task, then_, caches_open, cache_put. simpl.
  rewrite Hopen. simpl.
  destruct (has_cache (NEWS_CACHE version) (caches w)) eqn:Hhas; simpl;
    rewrite Hget, Hput; simpl; f_equal.
  - by apply match_after_put.
  - apply match_after_put; [done | apply has_cache_opened |].
    by rewrite elsewhere_opened.
Qed.

(** * Further properties of the three listeners *)

(** ** Stores under update *)

Lemma store_update_same (name : string) (f : Cache -> Cache) (cs : CacheStorage) :
  store name (update_cache name f cs) = f <$> store name cs.
Proof.
  induction cs as [|[n c] cs IH]; [reflexivity|]. simpl.
  destruct (String.eqb n name) eqn:Hn; simpl; rewrite Hn; [reflexivity | exact IH].
Qed.

Lemma store_update_other (name other : string) (f : Cache -> Cache) (cs : CacheStorage) :
  other <> name ->
  store other (update_cache name f cs) = store other cs.
Proof.
  intros Hne. induction cs as [|[n c] cs IH]; [reflexivity|]. simpl.
  destruct (String.eqb_spec n name) as [->|Hn]; simpl.
  - destruct (String.eqb_spec name other); [congruence | reflexivity].
  - destruct (String.eqb n other); [reflexivity | exact IH].
Qed.

Lemma names_update (name : string) (f : Cache -> Cache) (cs : CacheStorage) :
  map fst (update_cache name f cs) = map fst cs.
Proof.
  induction cs as [|[n c] cs IH]; [reflexivity|]. simpl.
  destruct (String.eqb n name); simpl; [reflexivity | by rewrite IH].
Qed.

Lemma store_opened (name other : string) (cs : CacheStorage) :
  has_cache name cs = false ->
  store other (cs ++ [(name, ∅)])
  = if String.eqb name other then Some ∅ else store other cs.
Proof.
  induction cs as [|[n c] cs IH]; simpl; [reflexivity|].
  intros Hhas. apply orb_false_elim in Hhas as [Hn Hhas].
  destruct (String.eqb_spec n other) as [->|Hne].
  - by rewrite String.eqb_sym, Hn.
  - by apply IH.
Qed.

Lemma store_has_cache (name : string) (cs : CacheStorage) :
  has_cache name cs = true -> exists c, store name cs = Some c.
Proof.
  induction cs as [|[n c] cs IH]; simpl; [discriminate|].
  destruct (String.eqb n name); simpl; [by exists c | exact IH].
Qed.

(** The batch write of [addAll], seen from one store name. *)
Lemma store_batch_same (name : string) (entries : list (Request * Response))
    (cs : CacheStorage) :
  store name
    (fold_left (fun cs e => update_cache name (insert (url (fst e)) (snd e)) cs)
               entries cs)
  = fold_left (fun c e => <[url (fst e) := snd e]> c) entries <$> store name cs.
Proof.
  revert cs. induction entries as [|e entries IH]; intros cs; simpl.
  - by destruct (store name cs).
  - rewrite IH, store_update_same. by destruct (store name cs).
Qed.

Lemma store_batch_other (name other : string) (entries : list (Request * Response))
    (cs : CacheStorage) :
  other <> name ->
  store other
    (fold_left (fun cs e => update_cache name (insert (url (fst e)) (snd e)) cs)
               entries cs)
  = store other cs.
Proof.
  intros Hne. revert cs. induction entries as [|e entries IH]; intros cs; simpl.
  - reflexivity.
  - by rewrite IH, store_update_other.
Qed.

Lemma names_batch (name : string) (entries : list (Request * Response))
    (cs : CacheStorage) :
  map fst
    (fold_left (fun cs e => update_cache name (insert (url (fst e)) (snd e)) cs)
               entries cs)
  = map fst cs.
Proof.
  revert cs. induction entries as [|e entries IH]; intros cs; simpl.
  - reflexivity.
  - by rewrite IH, names_update.
Qed.

(** After a batch of inserts a key holds the value of any entry that has
    it, provided the entries with that key all carry the same value. *)
Lemma lookup_batch_kept (u : string) (r : Response)
    (entries : list (Request * Response)) (c : Cache) :
  Forall (fun e => url (fst e) = u -> snd e = r) entries ->
  c !! u = Some r ->
  fold_left (fun c e => <[url (fst e) := snd e]> c) entries c !! u = Some r.
Proof.
  intros Hsame. revert c. induction Hsame as [|e entries He _ IH]; intros c Hc.
  - exact Hc.
  - simpl. apply IH. destruct (decide (url (fst e) = u)) as [Hu|Hu].
    + rewrite Hu, lookup_insert_eq. f_equal. by apply He.
    + by rewrite lookup_insert_ne.
Qed.

Lemma lookup_batch (u : string) (r : Response)
    (entries : list (Request * Response)) (c : Cache) :
  Forall (fun e => url (fst e) = u -> snd e = r) entries ->
  (exists e, In e entries /\ url (fst e) = u) ->
  fold_left (fun c e => <[url (fst e) := snd e]> c) entries c !! u = Some r.
Proof.
  intros Hsame. revert c.
  induction Hsame as [|e entries He Hsame IH]; intros c (e0 & Hin & Hu).
  - destruct Hin.
  - simpl. destruct Hin as [->|Hin].
    + apply lookup_batch_kept; [exact Hsame|].
      rewrite Hu, lookup_insert_eq. f_equal. by apply He.
    + apply IH. by exists e0.
Qed.

(** ** The install listener, asset by asset *)

Lemma caches_log_fetches (reqs : list Request) (w : Worker) :
  caches (fold_left (fun w req => log (Fetch req) w) reqs w) = caches w.
Proof.
  revert w. induction reqs as [|req reqs IH]; intros w; simpl; [done|].
  by rewrite IH.
Qed.

(** A batch is kept exactly when every request got an ok response, and
    then it pairs each request with what the network answered. *)
Lemma fetch_batch_all_ok (h : Host) (reqs : list Request) :
  (forall req, In req reqs -> exists r, network h req = Some r /\ ok r = true) ->
  exists entries,
    fetch_batch h reqs = Some entries
    /\ map fst entries = reqs
    /\ Forall (fun e => network h (fst e) = Some (snd e)) entries.
Proof.
  induction reqs as [|req reqs IH]; intros Hall.
  - by exists [].
  - destruct (Hall req) as (r & Hnet & Hok); [by left|].
    destruct IH as (entries & Hb & Hm & Hf).
    { intros q Hq. apply Hall. by right. }
    exists ((req, r) :: entries). simpl. rewrite Hnet, Hb, Hok.
    split; [reflexivity|]. split; [by rewrite Hm|]. by constructor.
Qed.

Lemma fetch_batch_one_bad (h : Host) (reqs : list Request) (req : Request) :
  In req reqs ->
  (forall r, network h req = Some r -> ok r = false) ->
  fetch_batch h reqs = None.
Proof.
  intros Hin Hbad. induction reqs as [|q reqs IH]; [destruct Hin|]. simpl.
  destruct Hin as [->|Hin].
  - destruct (network h req) as [r|] eqn:Hnet; [|reflexivity].
    rewrite (Hbad r eq_refl). by destruct (fetch_batch h reqs).
  - rewrite (IH Hin). by destruct (network h q).
Qed.

Lemma caches_opened (name : string) (h : Host) (w : Worker) :
  open_ok h name = true ->
  caches_open name h w = (Fulfilled name, snd (caches_open name h w))
  /\ caches (snd (caches_open name h w))
     = if has_cache name (caches w) then caches w else (caches w ++ [(name, ∅)])%list.
Proof.
  intros Hopen. unfold caches_open. cbv zeta. rewrite Hopen. simpl.
  split; [reflexivity|]. by destruct (has_cache name (caches w)).
Qed.

Section InstallOutcome.

Variable version : string.
Variable assets : list string.

(** Install when the store opens and the whole batch is fetched and
    written. *)
Lemma install_success (h : Host) (w : Worker) (entries : list (Request * Response)) :
  open_ok h (STATIC_CACHE version) = true ->
  fetch_batch h (map (request_of h) assets) = Some entries ->
  forallb (fun e => put_ok h (STATIC_CACHE version) (fst e)) entries = true ->
  fst (install version assets h w) = Fulfilled tt
  /\ caches (snd (install version assets h w))
     = fold_left
         (fun cs e => update_cache (STATIC_CACHE version) (insert (url (fst e)) (snd e)) cs)
         entries (caches (snd (caches_open (STATIC_CACHE version) h w))).
Proof.
  intros Hopen Hb Hputs. unfold install, then_, catch.
  destruct (caches_opened (STATIC_CACHE version) h w Hopen) as [-> _].
  unfold cache_addAll. cbv zeta. rewrite Hb, Hputs. unfold skipWaiting. simpl.
  by rewrite caches_log_fetches.
Qed.

(** What install leaves behind when every asset is fetched and written. *)
Lemma install_stores (h : Host) (w : Worker) :
  open_ok h (STATIC_CACHE version) = true ->
  (forall a, In a assets ->
     exists r, network h (request_of h a) = Some r /\ ok r = true
               /\ put_ok h (STATIC_CACHE version) (request_of h a) = true) ->
  exists c,
    fst (install version assets h w) = Fulfilled tt
    /\ store (STATIC_CACHE version) (caches (snd (install version assets h w))) = Some c
    /\ (forall a, In a assets ->
          c !! url (request_of h a) = network h (request_of h a))
    /\ (forall other, other <> STATIC_CACHE version ->
          store other (caches (snd (install version assets h w)))
          = store other (caches w))
    /\ map fst (caches (snd (install version assets h w)))
       = map fst (caches (snd (caches_open (STATIC_CACHE version) h w))).
Proof.
  intros Hopen Hall.
  destruct (fetch_batch_all_ok h (map (request_of h) assets)) as (entries & Hb & Hm & Hf).
  { intros req Hin. apply in_map_iff in Hin as (a & <- & Ha).
    destruct (Hall a Ha) as (r & Hnet & Hok & _). by exists r. }
  assert (forallb (fun e => put_ok h (STATIC_CACHE version) (fst e)) entries = true) as Hputs.
  { apply forallb_forall. intros e He.
    assert (In (fst e) (map (request_of h) assets)) as Hin
      by (rewrite <- Hm; by apply in_map).
    apply in_map_iff in Hin as (a & <- & Ha).
    by destruct (Hall a Ha) as (_ & _ & _ & Hput). }
  destruct (install_success h w entries Hopen Hb Hputs) as [Hres ->].
  destruct (caches_opened (STATIC_CACHE version) h w Hopen) as [_ Hopened].
  assert (exists c0, store (STATIC_CACHE version)
                       (caches (snd (caches_open (STATIC_CACHE version) h w))) = Some c0)
    as [c0 Hc0].
  { rewrite Hopened.
    destruct (has_cache (STATIC_CACHE version) (caches w)) eqn:Hhas.
    - by apply store_has_cache.
    - exists ∅. by rewrite store_opened, String.eqb_refl. }
  exists (fold_left (fun c e => <[url (fst e) := snd e]> c) entries c0).
  split; [exact Hres|]. split; [by rewrite store_batch_same, Hc0|].
  split; [|split].
  - intros a Ha. destruct (Hall a Ha) as (r & Hnet & _). rewrite Hnet.
    apply lookup_batch.
    + apply Forall_forall. intros e He Hu.
      apply List.Forall_forall with (x := e) in Hf; [|by apply list_elem_of_In].
      assert (In (fst e) (map (request_of h) assets)) as Hin.
      { rewrite <- Hm. apply in_map. by apply list_elem_of_In. }
      apply in_map_iff in Hin as (a' & Ha' & _).
      assert (fst e = request_of h a) as Heq.
      { rewrite <- Ha' in *. unfold request_of in *. simpl in Hu. by rewrite Hu. }
      rewrite Heq in Hf. congruence.
    + assert (In (request_of h a) (map fst entries)) as Hin
        by (rewrite Hm; by apply in_map).
      apply in_map_iff in Hin as (e & He & Hine). exists e. by rewrite He.
  - intros other Hne. rewrite store_batch_other by exact Hne. rewrite Hopened.
    destruct (has_cache (STATIC_CACHE version) (caches w)) eqn:Hhas;
      [reflexivity|].
    rewrite store_opened by exact Hhas.
    destruct (String.eqb_spec (STATIC_CACHE version) other); congruence.
  - by rewrite names_batch.
Qed.

End InstallOutcome.

(** X1: when the static store opens and every asset is fetched with an ok
    status and written, install resolves and the static store answers each
    asset's URL with the response the network gave; every other store is
    what it was.  (A list naming the same URL twice is left out: the
    platform refuses such a batch.) *)
Theorem X1_install_stores_every_asset (version : string) (assets : list string)
    (h : Host) (w : Worker) :
  open_ok h (STATIC_CACHE version) = true ->
  NoDup (map (fun a => url (request_of h a)) assets) ->
  (forall a, In a assets ->
     exists r, network h (request_of h a) = Some r /\ ok r = true
               /\ put_ok h (STATIC_CACHE version) (request_of h a) = true) ->
  exists c,
    fst (install version assets h w) = Fulfilled tt
    /\ store (STATIC_CACHE version) (caches (snd (install version assets h w))) = Some c
    /\ (forall a, In a assets ->
          c !! url (request_of h a) = network h (request_of h a))
    /\ (forall other, other <> STATIC_CACHE version ->
          store other (caches (snd (install version assets h w)))
          = store other (caches w)).
Proof.
  intros Hopen _ Hall.
  destruct (install_stores version assets h w Hopen Hall)
    as (c & Hres & Hc & Hall' & Hother & _).
  by exists c.
Qed.

Lemma X1_witness :
  open_ok online (STATIC_CACHE CACHE_VERSION) = true
  /\ NoDup (map (fun a => url (request_of online a)) ASSETS_TO_CACHE)
  /\ exists c,
    fst (onInstall online fresh) = Fulfilled tt
    /\ store (STATIC_CACHE CACHE_VERSION) (caches (snd (onInstall online fresh))) = Some c
    /\ c !! "https://example.com/index.html" = Some news_200.
Proof.
  assert (open_ok online (STATIC_CACHE CACHE_VERSION) = true) as Hopen by reflexivity.
  assert (NoDup (map (fun a => url (request_of online a)) ASSETS_TO_CACHE)) as Hnodup.
  { apply (bool_decide_unpack _). vm_compute. reflexivity. }
  assert (forall a, In a ASSETS_TO_CACHE ->
            exists r, network online (request_of online a) = Some r /\ ok r = true
                      /\ put_ok online (STATIC_CACHE CACHE_VERSION) (request_of online a) = true)
    as Hall by (intros a _; by exists news_200).
  destruct (X1_install_stores_every_asset CACHE_VERSION ASSETS_TO_CACHE online fresh
              Hopen Hnodup Hall) as (c & Hres & Hc & Hlook & _).
  split; [exact Hopen|]. split; [exact Hnodup|].
  exists c. split; [exact Hres|]. split; [exact Hc|].
  apply (Hlook "/index.html"). right. left. reflexivity.
Defined.

(** X2: install either fails at opening the static store, having asked
    the host for nothing else (no fetch, no [skipWaiting]), or it resolves
    with [skipWaiting] as its last act, whatever the network and the
    writes did: the catch of line 28 guards [addAll] only. *)
Theorem X2_install_fails_only_at_open (version : string) (assets : list string)
    (h : Host) (w : Worker) :
  (open_ok h (STATIC_CACHE version) = false
   /\ install version assets h w
      = (Rejected, log (CachesOpen (STATIC_CACHE version)) w))
  \/ (open_ok h (STATIC_CACHE version) = true
      /\ fst (install version assets h w) = Fulfilled tt
      /\ exists before,
           trace (snd (install version assets h w)) = (before ++ [SkipWaiting])%list).
Proof.
  destruct (open_ok h (STATIC_CACHE version)) eqn:Hopen; [right | left].
  - split; [reflexivity|]. unfold install, then_, catch.
    destruct (caches_opened (STATIC_CACHE version) h w Hopen) as [-> _].
    destruct (cache_addAll _ _ _ _) as [[[]|] w']; simpl;
      (split; [reflexivity | by eexists]).
  - split; [reflexivity|]. unfold install, then_, caches_open. cbv zeta.
    by rewrite Hopen.
Qed.

(** X3: one asset that cannot be fetched, or comes back with a status
    that is not ok, voids the whole install: it still resolves, but no
    entry is written for any asset; the stores are what they were, plus
    an empty static store when there was none. *)
Theorem X3_one_bad_asset_stores_nothing (version : string) (assets : list string)
    (bad : string) (h : Host) (w : Worker) :
  open_ok h (STATIC_CACHE version) = true ->
  In bad assets ->
  (forall r, network h (request_of h bad) = Some r -> ok r = false) ->
  fst (install version assets h w) = Fulfilled tt
  /\ caches (snd (install version assets h w))
     = if has_cache (STATIC_CACHE version) (caches w) then caches w
       else (caches w ++ [(STATIC_CACHE version, ∅)])%list.
Proof.
  intros Hopen Hin Hbad. split; [by apply install_resolves|].
  rewrite install_all_or_nothing.
  - by destruct (caches_opened (STATIC_CACHE version) h w Hopen) as [_ ->].
  - apply (fetch_batch_one_bad h _ (request_of h bad)); [by apply in_map | exact Hbad].
Qed.

Lemma X3_witness :
  network failing_api (request_of failing_api "/index.html") = Some news_500
  /\ ok news_500 = false
  /\ fst (onInstall failing_api with_shell) = Fulfilled tt
  /\ caches (snd (onInstall failing_api with_shell)) = caches with_shell.
Proof.
  split; [reflexivity|]. split; [reflexivity|].
  assert (open_ok failing_api (STATIC_CACHE CACHE_VERSION) = true) as Hopen
    by reflexivity.
  assert (In "/index.html" ASSETS_TO_CACHE) as Hin by (right; left; reflexivity).
  assert (forall r, network failing_api (request_of failing_api "/index.html") = Some r ->
                    ok r = false) as Hbad.
  { intros r Hr. injection Hr as <-. reflexivity. }
  exact (X3_one_bad_asset_stores_nothing CACHE_VERSION ASSETS_TO_CACHE "/index.html"
           failing_api with_shell Hopen Hin Hbad).
Defined.

(** ** The activate listener, run again *)

Lemma filter_again {A} (p : A -> bool) (l : list A) :
  List.filter p (List.filter p l) = List.filter p l.
Proof.
  rewrite filter_twice. apply List.filter_ext. intros x. by destruct (p x).
Qed.

Lemma nothing_stale_left (p : string -> bool) (cs : CacheStorage) :
  List.filter (fun n => negb (p n)) (map fst (List.filter (fun kv => p (fst kv)) cs))
  = [].
Proof.
  induction cs as [|[n c] cs IH]; [reflexivity|]. simpl.
  destruct (p n) eqn:Hp; simpl; [by rewrite Hp|]; exact IH.
Qed.

(** X4: activating twice is activating once.  The second run finds only
    current stores: it enumerates, deletes nothing, claims the clients,
    and leaves every store as the first run left it. *)
Theorem X4_activate_twice (version : string) (h1 h2 : Host) (w : Worker) :
  activate version h2 (snd (activate version h1 w))
  = (Fulfilled tt,
     {| caches := caches (snd (activate version h1 w));
        trace := trace (snd (activate version h1 w)) ++ [CachesKeys; ClientsClaim];
        detached := detached (snd (activate version h1 w)) |}).
Proof.
  rewrite (activate_sweeps version h2). f_equal.
  rewrite (activate_sweeps version h1). cbn [snd caches trace detached]. f_equal.
  - apply (filter_again
             (fun kv => String.eqb (fst kv) (STATIC_CACHE version)
                        || String.eqb (fst kv) (NEWS_CACHE version))).
  - by rewrite (nothing_stale_left
                  (fun n => String.eqb n (STATIC_CACHE version)
                            || String.eqb n (NEWS_CACHE version))).
Qed.

(** X5: whatever activate asks of the host is, first, the enumeration of
    the stores and then only the deletion of an existing store that bears
    neither current name or the claim of the clients: it fetches nothing,
    opens and writes no store, deletes no current store, and leaves no
    callback behind. *)
Theorem X5_activate_asks_only_for_cleanup (version : string) (h : Host) (w : Worker) :
  detached (snd (activate version h w)) = detached w
  /\ exists asked,
       trace (snd (activate version h w)) = (trace w ++ CachesKeys :: asked)%list
       /\ Forall (fun e => e = ClientsClaim
                           \/ exists n, e = CachesDelete n
                                        /\ In n (map fst (caches w))
                                        /\ n <> STATIC_CACHE version
                                        /\ n <> NEWS_CACHE version) asked.
Proof.
  rewrite activate_sweeps. cbn [snd trace detached].
  split; [reflexivity|]. eexists. split; [reflexivity|].
  apply Forall_app. split.
  - apply List.Forall_forall. intros e He. right.
    apply in_map_iff in He as (n & <- & Hn). exists n. split; [reflexivity|].
    apply filter_In in Hn as [Hin Hstale]. split; [exact Hin|].
    apply negb_true_iff, orb_false_elim in Hstale as [Hs Hd].
    split; by apply String.eqb_neq.
  - repeat constructor.
Qed.

(** ** Store names across versions *)

(** X6: the four store names of two different version tags are pairwise
    different: a version change renames both stores, and no static name
    is ever a dynamic-news name. *)
Theorem X6_store_names_isolate_versions (v1 v2 : string) :
  v1 <> v2 ->
  NoDup [STATIC_CACHE v1; NEWS_CACHE v1; STATIC_CACHE v2; NEWS_CACHE v2].
Proof.
  intros Hv.
  assert (STATIC_CACHE v1 <> STATIC_CACHE v2) as Hss
    by (intros E; by apply static_name_inj in E).
  assert (NEWS_CACHE v1 <> NEWS_CACHE v2) as Hnn
    by (intros E; by apply news_name_inj in E).
  pose proof static_is_not_news as Hsn.
  assert (forall a b, NEWS_CACHE a <> STATIC_CACHE b) as Hns
    by (intros a b E; symmetry in E; by apply Hsn in E).
  repeat (apply NoDup_cons; split); try apply NoDup_nil_2;
    rewrite list_elem_of_In; simpl; intros E;
    repeat (destruct E as [E|E]; [first [by apply Hsn in E | by apply Hns in E | congruence]|]);
    exact E.
Qed.

Lemma X6_witness :
  previous_version <> CACHE_VERSION
  /\ NoDup [STATIC_CACHE previous_version; NEWS_CACHE previous_version;
            STATIC_CACHE CACHE_VERSION; NEWS_CACHE CACHE_VERSION].
Proof.
  assert (previous_version <> CACHE_VERSION) as Hne by discriminate.
  split; [exact Hne|]. exact (X6_store_names_isolate_versions _ _ Hne).
Defined.

(** ** Line 77 on other asset lists *)

Lemma replace_leading (p : string) : JS.replace (String "/" p) "/" EmptyString = p.
Proof. by destruct p. Qed.

Lemma replace_absent (a : string) :
  JS.includes a "/" = false -> JS.replace a "/" EmptyString = a.
Proof.
  induction a as [|c a IH]; [reflexivity|].
  rewrite includes_unfold. intros H. apply orb_false_elim in H as [Hp Hrest].
  change (JS.replace (String c a) "/" EmptyString)
    with (if String.prefix "/" (String c a)
          then EmptyString ++ JS.skip (String.length "/") (String c a)
          else String c (JS.replace a "/" EmptyString)).
  by rewrite Hp, (IH Hrest).
Qed.

Lemma replace_is_strip (a : string) :
  JS.startsWith a "/" = true \/ JS.includes a "/" = false ->
  JS.replace a "/" EmptyString = strip_leading_separator a.
Proof.
  intros [Hstart|Hnone].
  - apply prefix_spec in Hstart as (rest & ->).
    change ("/" ++ rest) with (String "/" rest). by rewrite replace_leading.
  - rewrite (replace_absent a Hnone).
    destruct a as [|c a']; [reflexivity|].
    rewrite includes_unfold in Hnone. apply orb_false_elim in Hnone as [Hp _].
    simpl in Hp.
    destruct (Ascii.ascii_dec "/" c) as [<-|Hc]; [by destruct a'|].
    destruct c as [[] [] [] [] [] [] [] []]; try reflexivity. congruence.
Qed.

Lemma existsb_agree {A} (f g : A -> bool) (l : list A) :
  (forall x, In x l -> f x = g x) -> existsb f l = existsb g l.
Proof.
  induction l as [|x l IH]; intros Hfg; [reflexivity|]. simpl.
  rewrite (Hfg x) by (by left). rewrite IH; [reflexivity|].
  intros y Hy. apply Hfg. by right.
Qed.

Section OtherAssetLists.

Variable version : string.
Variable assets : list string.

(** X7: a path entry of the asset list captures every request whose URL
    contains the entry without its leading separator, wherever it occurs
    (a query string will do) and whatever the method: the request is
    answered by the cache-first arm. *)
Theorem X7_path_entry_matches_anywhere (p pre post : string) (req : Request)
    (h : Host) (w : Worker) :
  In (String "/" p) assets ->
  JS.startsWith (url req) "chrome-extension://" = false ->
  url req = pre ++ p ++ post ->
  route assets req = CacheFirst
  /\ intercept version assets req h w = respondWith (cacheFirst req) h w.
Proof.
  intros Hin Hext Hurl.
  assert (isStaticAsset assets req = true) as Hstatic.
  { unfold isStaticAsset, JS.some. apply existsb_exists.
    exists (String "/" p). split; [exact Hin|].
    rewrite replace_leading. apply includes_spec. by exists pre, post. }
  assert (route assets req = CacheFirst) as Hr
    by (unfold route; by rewrite Hext, Hstatic).
  split; [exact Hr|]. unfold intercept. by rewrite Hr.
Qed.

(** X8: on an asset list whose entries are paths (they start with the
    separator) or contain no separator at all, removing the first
    separator is stripping the leading one, and the condition of lines
    77-79 is the static-asset class as the specification words it. *)
Theorem X8_first_separator_is_leading_on_paths (req : Request) :
  (forall a, In a assets ->
     JS.startsWith a "/" = true \/ JS.includes a "/" = false) ->
  isStaticAsset assets req || String.eqb (URL.pathname (url req)) "/"
  = spec_static_class assets req.
Proof.
  intros Hshape. unfold spec_static_class, isStaticAsset, JS.some. f_equal.
  apply existsb_agree. intros a Ha. f_equal. apply replace_is_strip.
  by apply Hshape.
Qed.

Lemma route_networkFirst_get (req : Request) :
  route assets req = NetworkFirst -> method req = "GET".
Proof.
  unfold route.
  destruct (JS.startsWith (url req) "chrome-extension://"); [discriminate|].
  cbv zeta.
  destruct (isStaticAsset assets req || String.eqb (URL.pathname (url req)) "/");
    [discriminate|].
  destruct (String.eqb_spec (method req) "GET") as [Hget|_]; [done|discriminate].
Qed.

(** X9: where a request is routed to the network-first arm, an ok response
    is passed on and, once the write left behind has gone through, the
    same request with the network down is answered with that response. *)
Theorem X9_network_first_round_trip (req : Request) (r : Response)
    (h h' : Host) (w : Worker) :
  route assets req = NetworkFirst ->
  network h req = Some r ->
  ok r = true ->
  open_ok h (NEWS_CACHE version) = true ->
  put_ok h (NEWS_CACHE version) req = true ->
  detached w = [] ->
  storage_match (elsewhere (NEWS_CACHE version) (caches w)) req = None ->
  network h' req = None ->
  fst (intercept version assets req h w) = RespondWith (Some r)
  /\ fst (intercept version assets req h'
            (settle h (snd (intercept version assets req h w))))
     = RespondWith (Some r).
Proof.
  intros Hr Hnet Hok Hopen Hput Hdet Hno Hdown. unfold intercept. rewrite Hr.
  split.
  - by rewrite (networkFirst_online version req r h w Hnet).
  - apply networkFirst_serves_stale; try done. by apply route_networkFirst_get.
Qed.

(** X10: in the network-first arm a response whose status is not ok is
    passed on as it is, but nothing is written for it: the stores are what
    they were, and the same request with the network down is answered
    with whatever was stored before. *)
Theorem X10_error_response_keeps_stored_copy (req : Request) (r : Response)
    (h h' : Host) (w : Worker) :
  route assets req = NetworkFirst ->
  network h req = Some r ->
  ok r = false ->
  detached w = [] ->
  network h' req = None ->
  fst (intercept version assets req h w) = RespondWith (Some r)
  /\ caches (settle h (snd (intercept version assets req h w))) = caches w
  /\ fst (intercept version assets req h'
            (settle h (snd (intercept version assets req h w))))
     = RespondWith (storage_match (caches w) req).
Proof.
  intros Hr Hnet Hok Hdet Hdown. unfold intercept. rewrite Hr.
  rewrite (networkFirst_online version req r h w Hnet), Hok, Hdet.
  cbn [fst snd]. unfold settle. cbn [detached caches trace fold_left app].
  split; [reflexivity|]. split; [reflexivity|].
  by rewrite (networkFirst_offline version req h' _ Hdown).
Qed.

End OtherAssetLists.

Lemma X7_witness :
  In "/index.html" paths_only
  /\ spec_static_class [] api_about_index = false
  /\ route paths_only api_about_index = CacheFirst
  /\ intercept CACHE_VERSION paths_only api_about_index online fresh
     = respondWith (cacheFirst api_about_index) online fresh.
Proof.
  assert (In "/index.html" paths_only) as Hin by (left; reflexivity).
  split; [exact Hin|]. split; [reflexivity|].
  apply (X7_path_entry_matches_anywhere CACHE_VERSION paths_only
           "index.html" "https://example.com/api/news?from=" EmptyString);
    [exact Hin | reflexivity | reflexivity].
Defined.

Lemma X8_witness :
  (forall a, In a paths_only ->
     JS.startsWith a "/" = true \/ JS.includes a "/" = false)
  /\ isStaticAsset paths_only api_news_get
     || String.eqb (URL.pathname (url api_news_get)) "/"
     = spec_static_class paths_only api_news_get.
Proof.
  assert (forall a, In a paths_only ->
            JS.startsWith a "/" = true \/ JS.includes a "/" = false) as Hshape.
  { intros a [<-|[<-|[]]]; by left. }
  split; [exact Hshape|].
  exact (X8_first_separator_is_leading_on_paths paths_only api_news_get Hshape).
Defined.

Lemma X9_witness :
  route paths_only api_news_get = NetworkFirst
  /\ network online api_news_get = Some news_200
  /\ network offline api_news_get = None
  /\ fst (intercept CACHE_VERSION paths_only api_news_get online with_shell)
     = RespondWith (Some news_200)
  /\ fst (intercept CACHE_VERSION paths_only api_news_get offline
            (settle online
               (snd (intercept CACHE_VERSION paths_only api_news_get online with_shell))))
     = RespondWith (Some news_200).
Proof.
  split; [reflexivity|]. split; [reflexivity|]. split; [reflexivity|].
  apply (X9_network_first_round_trip CACHE_VERSION paths_only api_news_get news_200
           online offline with_shell); reflexivity.
Defined.

Lemma X10_witness :
  route paths_only api_news_get = NetworkFirst
  /\ network failing_api api_news_get = Some news_500
  /\ ok news_500 = false
  /\ fst (intercept CACHE_VERSION paths_only api_news_get failing_api with_news)
     = RespondWith (Some news_500)
  /\ fst (intercept CACHE_VERSION paths_only api_news_get offline
            (settle failing_api
               (snd (intercept CACHE_VERSION paths_only api_news_get failing_api with_news))))
     = RespondWith (Some news_200).
Proof.
  split; [reflexivity|]. split; [reflexivity|]. split; [reflexivity|].
  destruct (X10_error_response_keeps_stored_copy CACHE_VERSION paths_only
              api_news_get news_500 failing_api offline with_news)
    as (Hout & _ & Hlater); try reflexivity.
  split; [exact Hout | exact Hlater].
Defined.

(** ** The deployed worker over a whole session *)

Lemma settle_idle (h : Host) (w : Worker) : detached w = [] -> settle h w = w.
Proof. intros Hdet. unfold settle. rewrite Hdet. simpl. destruct w. simpl in *. by subst. Qed.

(** X11: no sequence of fetch events, whatever the requests and whatever
    the network does, changes any store of the deployed worker or leaves a
    write behind: what it can serve from its stores is what install put
    there. *)
Theorem X11_fetch_events_never_store (events : list (Request * Host)) (w : Worker) :
  detached w = [] ->
  caches (serve events w) = caches w /\ detached (serve events w) = [].
Proof.
  revert w. induction events as [|[req h] events IH]; intros w Hdet; [done|].
  simpl. destruct (onFetch_never_stores req h w) as [Hc Hd].
  rewrite Hdet in Hd. rewrite (settle_idle h _ Hd).
  destruct (IH _ Hd) as [Hc' Hd']. split; [congruence | exact Hd'].
Qed.

Lemma X11_witness :
  detached installed = []
  /\ caches (serve [(api_news_get, online); (api_news_post, online);
                    (api_news_get, offline)] installed) = caches installed
  /\ detached (serve [(api_news_get, online); (api_news_post, online);
                      (api_news_get, offline)] installed) = [].
Proof.
  assert (detached installed = []) as Hdet by reflexivity.
  split; [exact Hdet|].
  exact (X11_fetch_events_never_store _ installed Hdet).
Defined.

(** ** From install to an offline page load *)

Lemma only_store (name : string) (c : Cache) (cs : CacheStorage) :
  map fst cs = [name] -> store name cs = Some c -> cs = [(name, c)].
Proof.
  destruct cs as [|[n c0] [|kv cs]]; try discriminate. simpl.
  intros Hn. injection Hn as ->. rewrite String.eqb_refl. congruence.
Qed.

(** X12: on a first install with every asset reachable, each asset is
    afterwards served from the static store: once the worker is activated,
    a request for the asset's URL is answered with the response fetched at
    install, without any fetch, whatever the network is doing by then. *)
Theorem X12_installed_assets_served_offline (a : string) (h h' : Host) (w : Worker) :
  caches w = [] ->
  open_ok h (STATIC_CACHE CACHE_VERSION) = true ->
  NoDup (map (fun a => url (request_of h a)) ASSETS_TO_CACHE) ->
  (forall a, In a ASSETS_TO_CACHE ->
     exists r, network h (request_of h a) = Some r /\ ok r = true
               /\ put_ok h (STATIC_CACHE CACHE_VERSION) (request_of h a) = true) ->
  In a ASSETS_TO_CACHE ->
  JS.startsWith (url (request_of h a)) "chrome-extension://" = false ->
  fst (onFetch (request_of h a) h' (snd (onActivate h (snd (onInstall h w)))))
  = RespondWith (network h (request_of h a))
  /\ List.filter is_fetch
       (trace (snd (onFetch (request_of h a) h'
                      (snd (onActivate h (snd (onInstall h w)))))))
     = List.filter is_fetch (trace (snd (onActivate h (snd (onInstall h w))))).
Proof.
  intros Hempty Hopen _ Hall Ha Hext.
  destruct (install_stores CACHE_VERSION ASSETS_TO_CACHE h w Hopen Hall)
    as (c & _ & Hc & Hlook & _ & Hnames).
  destruct (caches_opened (STATIC_CACHE CACHE_VERSION) h w Hopen) as [_ Hopened].
  rewrite Hopened, Hempty in Hnames. simpl in Hnames.
  pose proof (only_store _ c _ Hnames Hc) as Hcs.
  assert (storage_match (caches (snd (onActivate h (snd (onInstall h w)))))
            (request_of h a) = network h (request_of h a)) as Hm.
  { unfold onActivate. rewrite activate_sweeps. cbn [snd caches].
    unfold onInstall. rewrite Hcs. simpl. rewrite ?String.eqb_refl. simpl.
    unfold cache_match. simpl.
    change (if JS.startsWith a "/" then origin h ++ a else a)
      with (url (request_of h a)).
    rewrite (Hlook a Ha). by destruct (network h (request_of h a)). }
  rewrite (onFetch_cacheFirst _ h' _ Hext).
  destruct (Hall a Ha) as (r & Hnet & _). rewrite Hnet in Hm |- *.
  rewrite (cacheFirst_hit _ h' _ r Hm). simpl.
  split; [reflexivity|]. rewrite List.filter_app. simpl. apply app_nil_r.
Qed.

Lemma X12_witness :
  caches fresh = []
  /\ In "/index.html" ASSETS_TO_CACHE
  /\ fst (onFetch index_get offline (snd (onActivate online (snd (onInstall online fresh)))))
     = RespondWith (Some news_200).
Proof.
  assert (In "/index.html" ASSETS_TO_CACHE) as Hin by (right; left; reflexivity).
  assert (NoDup (map (fun a => url (request_of online a)) ASSETS_TO_CACHE)) as Hnodup.
  { apply (bool_decide_unpack _). vm_compute. reflexivity. }
  assert (forall a, In a ASSETS_TO_CACHE ->
            exists r, network online (request_of online a) = Some r /\ ok r = true
                      /\ put_ok online (STATIC_CACHE CACHE_VERSION) (request_of online a) = true)
    as Hall by (intros a _; by exists news_200).
  split; [reflexivity|]. split; [exact Hin|].
  exact (proj1 (X12_installed_assets_served_offline "/index.html" online offline fresh
                  eq_refl eq_refl Hnodup Hall Hin eq_refl)).
Defined.

(** ** The arms the deployed list never reaches *)

Section UnreachedArms.

Variable version : string.
Variable assets : list string.

(** X13: a request that passes the extension guard, matches no asset
    entry, does not target the root path and is not a GET under the API
    prefix is not answered by the worker: the listener calls [fetch] once,
    never [respondWith], and consults and changes no store. *)
Theorem X13_default_arm_passes_through (req : Request) (h : Host) (w : Worker) :
  JS.startsWith (url req) "chrome-extension://" = false ->
  isStaticAsset assets req = false ->
  URL.pathname (url req) <> "/" ->
  spec_dynamic_news req = false ->
  route assets req = NetworkOnly
  /\ intercept version assets req h w = (NotHandled, log (Fetch req) w).
Proof.
  intros Hext Hstatic Hroot Hnews.
  assert (route assets req = NetworkOnly) as Hr.
  { unfold route. rewrite Hext, Hstatic. cbv zeta.
    apply String.eqb_neq in Hroot. rewrite Hroot. simpl.
    unfold spec_dynamic_news in Hnews. by rewrite Hnews. }
  split; [exact Hr|]. unfold intercept, fetch. rewrite Hr. cbv zeta.
  by destruct (network h req).
Qed.

(** X14: in the network-first arm a write that fails is silent.  The ok
    response is passed on all the same, and once the promise left behind
    has settled no lookup finds anything it did not find before. *)
Theorem X14_failed_write_is_silent (req : Request) (r : Response)
    (h : Host) (w : Worker) :
  route assets req = NetworkFirst ->
  network h req = Some r ->
  ok r = true ->
  detached w = [] ->
  open_ok h (NEWS_CACHE version) = false \/ put_ok h (NEWS_CACHE version) req = false ->
  fst (intercept version assets req h w) = RespondWith (Some r)
  /\ forall q,
       storage_match (caches (settle h (snd (intercept version assets req h w)))) q
       = storage_match (caches w) q.
Proof.
  intros Hr Hnet Hok Hdet Hfail. unfold intercept. rewrite Hr.
  rewrite (networkFirst_online version req r h w Hnet), Hok, Hdet.
  split; [reflexivity|]. intros q.
  cbn [snd andb]. unfold settle, run_task, cache_put. cbn [detached caches trace app].
  destruct (open_ok h (NEWS_CACHE version)) eqn:Hopen; [|reflexivity].
  destruct Hfail as [Hfail|Hput]; [discriminate|].
  cbn [fold_left]. cbv zeta. rewrite Hput, andb_false_r.
  destruct (has_cache (NEWS_CACHE version) (caches w)); simpl; [reflexivity|].
  apply storage_match_opened.
Qed.

End UnreachedArms.

Lemma X13_witness :
  route paths_only api_news_post = NetworkOnly
  /\ intercept CACHE_VERSION paths_only api_news_post online with_shell
     = (NotHandled, log (Fetch api_news_post) with_shell).
Proof.
  apply (X13_default_arm_passes_through CACHE_VERSION paths_only api_news_post
           online with_shell); [reflexivity | reflexivity | discriminate | reflexivity].
Defined.

Lemma X14_witness :
  route paths_only api_news_get = NetworkFirst
  /\ put_ok no_storage (NEWS_CACHE CACHE_VERSION) api_news_get = false
  /\ fst (intercept CACHE_VERSION paths_only api_news_get no_storage with_shell)
     = RespondWith (Some shell_page)
  /\ storage_match
       (caches (settle no_storage
                  (snd (intercept CACHE_VERSION paths_only api_news_get no_storage
                          with_shell))))
       api_news_get
     = None.
Proof.
  split; [reflexivity|]. split; [reflexivity|].
  destruct (X14_failed_write_is_silent CACHE_VERSION paths_only api_news_get
              shell_page no_storage with_shell) as [Hout Hsame];
    try reflexivity; [by right|].
  split; [exact Hout|]. by rewrite Hsame.
Defined.
